(** * Slack MCP server: OAuth flow, CSRF state registry, authentication
      middleware and channel pagination.

    A shallow embedding of the Go sources under [pkg/oauth], [pkg/server]
    and [pkg/handler], together with the properties of the specification
    that concern them.

    Conventions.
    - A Go [string] is a sequence of bytes: it is modelled by [string]
      (a list of [ascii], i.e. of 8-bit characters); Go's [<] and [>] on
      strings are the bytewise lexicographic order, [String.ltb].
    - A Go [int] is a 64-bit signed integer: it is a [Z], and the one
      addition on which the code could leave the range is wrapped
      explicitly ([wrap_int]).
    - A Go map from strings is a [gmap string _]; a slice is a [list].
    - A run-time panic (slice or index out of range) is [None].
    - An [error] result is the [inr] of a sum whose payload is the error
      message. *)

From Stdlib Require Import ZArith NArith Lia Ascii String.
From stdpp Require Import base option list strings gmap sorting.

Local Open Scope string_scope.
Local Open Scope Z_scope.

(** ** Byte-wise order on Go strings *)

Module GoString.

(** [a < b] and [a > b] on Go strings. *)
Definition lt (a b : string) : bool := String.ltb a b.
Definition gt (a b : string) : bool := String.ltb b a.

(** [strings.CutPrefix]: the rest of [s] after [pre], if [s] starts with it. *)
Fixpoint CutPrefix (s pre : string) : option string :=
  match pre, s with
  | EmptyString, _ => Some s
  | String p pre', String c s' =>
      if Ascii.eqb p c then CutPrefix s' pre' else None
  | String _ _, EmptyString => None
  end.

(** [strings.TrimPrefix]. *)
Definition TrimPrefix (s pre : string) : string :=
  default s (CutPrefix s pre).

(** [strings.Split(s, sep)] for a one-byte separator. *)
Fixpoint SplitByte (s : string) (sep : ascii) : list string :=
  match s with
  | EmptyString => [""]
  | String c s' =>
      if Ascii.eqb c sep then "" :: SplitByte s' sep
      else match SplitByte s' sep with
           | [] => [String c ""]
           | w :: ws => String c w :: ws
           end
  end.

(** [strings.Join]. *)
Fixpoint Join (elems : list string) (sep : string) : string :=
  match elems with
  | [] => ""
  | [e] => e
  | e :: rest => e +:+ sep +:+ Join rest sep
  end.

End GoString.

(** ** [encoding/base64], standard alphabet with padding

    The cursor of a page is the base64 encoding of the last channel id of
    that page.  The encoder and decoder follow RFC 4648 as Go's
    [base64.StdEncoding] implements it: 24-bit groups are cut into four
    6-bit values, a final group of one or two bytes is padded with [=],
    and the decoder skips carriage returns and line feeds, does not
    insist on zero trailing bits, and rejects everything else. *)

Module base64.

Definition encodeStd : string :=
  "ABCDEFGHIJKLMNOPQRSTUVWXYZabcdefghijklmnopqrstuvwxyz0123456789+/".

Definition padChar : ascii := "="%char.

(** [enc.encode[v]] for a 6-bit value. *)
Definition enc6 (v : N) : ascii :=
  default padChar (String.get (N.to_nat v) encodeStd).

(** [enc.decodeMap[c]]: the position of [c] in the alphabet, if any. *)
Fixpoint indexByte (s : string) (c : ascii) (i : N) : option N :=
  match s with
  | EmptyString => None
  | String d s' => if Ascii.eqb c d then Some i else indexByte s' c (N.succ i)
  end.

Definition dec6 (c : ascii) : option N := indexByte encodeStd c 0.

Definition byte (v : N) : ascii := ascii_of_N (v mod 256).

(** The 24-bit value [a<<16 | b<<8 | c] of a group of source bytes. *)
Definition val24 (a b c : ascii) : N :=
  (N_of_ascii a * 65536 + N_of_ascii b * 256 + N_of_ascii c)%N.

(** [val >> k & 0x3F] for [k] = 18, 12, 6, 0. *)
Definition sextet (val : N) (k : N) : N := ((val / 2 ^ k) mod 64)%N.

Fixpoint EncodeToString (src : string) : string :=
  match src with
  | EmptyString => ""
  | String a EmptyString =>
      let val := val24 a zero zero in
      String (enc6 (sextet val 18)) (String (enc6 (sextet val 12))
        (String padChar (String padChar "")))
  | String a (String b EmptyString) =>
      let val := val24 a b zero in
      String (enc6 (sextet val 18)) (String (enc6 (sextet val 12))
        (String (enc6 (sextet val 6)) (String padChar "")))
  | String a (String b (String c rest)) =>
      let val := val24 a b c in
      String (enc6 (sextet val 18)) (String (enc6 (sextet val 12))
        (String (enc6 (sextet val 6)) (String (enc6 (sextet val 0))
          (EncodeToString rest))))
  end.

(** The 24-bit value [d0<<18 | d1<<12 | d2<<6 | d3] of a decoded quantum. *)
Definition quantum (d0 d1 d2 d3 : N) : N :=
  (d0 * 262144 + d1 * 4096 + d2 * 64 + d3)%N.

Definition isNewline (c : ascii) : bool :=
  Ascii.eqb c "010"%char || Ascii.eqb c "013"%char.

Fixpoint dropNewlines (s : string) : string :=
  match s with
  | EmptyString => ""
  | String c s' =>
      if isNewline c then dropNewlines s' else String c (dropNewlines s')
  end.

(** Quanta of four characters; [None] is a [CorruptInputError]. *)
Fixpoint decodeQuanta (src : string) : option string :=
  match src with
  | EmptyString => Some ""
  | String c0 (String c1 (String c2 (String c3 rest))) =>
      match dec6 c0, dec6 c1 with
      | Some d0, Some d1 =>
          match dec6 c2, dec6 c3 with
          | Some d2, Some d3 =>
              let val := quantum d0 d1 d2 d3 in
              match decodeQuanta rest with
              | Some out =>
                  Some (String (byte (val / 65536)) (String (byte (val / 256))
                          (String (byte val) out)))
              | None => None
              end
          | Some d2, None =>
              let val := quantum d0 d1 d2 0 in
              if Ascii.eqb c3 padChar && String.eqb rest ""
              then Some (String (byte (val / 65536))
                           (String (byte (val / 256)) ""))
              else None
          | None, _ =>
              let val := quantum d0 d1 0 0 in
              if Ascii.eqb c2 padChar && Ascii.eqb c3 padChar
                 && String.eqb rest ""
              then Some (String (byte (val / 65536)) "")
              else None
          end
      | _, _ => None
      end
  | _ => None
  end.

Definition DecodeString (s : string) : option string :=
  decodeQuanta (dropNewlines s).

End base64.

(** ** The parts of the Go library whose result is not fixed by the source

    [sort.Slice] is not stable: which of two elements with equal keys comes
    first is the library's choice.  [strings.TrimSpace] follows the Unicode
    tables.  Both are taken as given, [sort.Slice] with the contract its
    documentation states: the result is a rearrangement of the slice, and it
    is ordered whenever [less] is a strict weak order. *)

Definition StrictWeak {A} (less : A → A → bool) : Prop :=
  (∀ x y, less x y = true → less y x = false) ∧
  (∀ x y z, less y x = false → less z y = false → less z x = false).

Class GoRuntime := {
  sort_Slice : ∀ {A : Type}, (A → A → bool) → list A → list A;
  sort_Slice_perm : ∀ A (less : A → A → bool) l, sort_Slice less l ≡ₚ l;
  sort_Slice_sorted : ∀ A (less : A → A → bool) l,
    StrictWeak less →
    StronglySorted (λ x y, less y x = false) (sort_Slice less l);
  strings_TrimSpace : string → string;
}.

(** An executable instance: insertion sort (which happens to be stable) and
    trimming of the ASCII white space. *)
Fixpoint insert_by {A} (less : A → A → bool) (x : A) (l : list A) : list A :=
  match l with
  | [] => [x]
  | y :: l' => if less x y then x :: y :: l' else y :: insert_by less x l'
  end.

Fixpoint insertion_sort {A} (less : A → A → bool) (l : list A) : list A :=
  match l with
  | [] => []
  | x :: l' => insert_by less x (insertion_sort less l')
  end.

Definition isAsciiSpace (c : ascii) : bool :=
  let n := N_of_ascii c in
  ((9 <=? n) && (n <=? 13))%N || (n =? 32)%N.

Fixpoint trimLeft (s : string) : string :=
  match s with
  | String c s' => if isAsciiSpace c then trimLeft s' else s
  | EmptyString => ""
  end.

Fixpoint trimRight (s : string) : string :=
  match s with
  | EmptyString => ""
  | String c s' =>
      match trimRight s' with
      | EmptyString => if isAsciiSpace c then "" else String c ""
      | t => String c t
      end
  end.

Definition asciiTrimSpace (s : string) : string := trimRight (trimLeft s).

(** ** Go's [int] and [time.Time] *)

Definition wrap_int (z : Z) : Z := (z + 2 ^ 63) mod 2 ^ 64 - 2 ^ 63.

(** [s[lo:hi]] on a slice whose capacity is its length. *)
Definition slice {A} (s : list A) (lo hi : Z) : option (list A) :=
  if (0 <=? lo) && (lo <=? hi) && (hi <=? Z.of_nat (length s))
  then Some (take (Z.to_nat hi - Z.to_nat lo) (drop (Z.to_nat lo) s))
  else None.

(** [s[i]]. *)
Definition index {A} (s : list A) (i : Z) : option A :=
  if 0 <=? i then s !! Z.to_nat i else None.

(** [m[k]] on a [map[string]bool]: the zero value when the key is absent. *)
Definition mapBool (m : gmap string bool) (k : string) : bool :=
  default false (m !! k).

Module time.
(** An instant, in nanoseconds from the zero [Time]. *)
Definition Time := Z.
Definition Zero : Time := 0.
Definition Second : Z := 1000000000.
Definition Minute : Z := 60 * Second.
Definition Hour : Z := 60 * Minute.
Definition Add (t : Time) (d : Z) : Time := t + d.
Definition After (t u : Time) : bool := u <? t.
End time.

Definition error := string.

(** ** [net/url]: query escaping and [Values.Encode] *)

Module url.

Definition upperhex : string := "0123456789ABCDEF".

Definition hexDigit (v : N) : ascii :=
  default "0"%char (String.get (N.to_nat v) upperhex).

Definition between (lo hi : ascii) (c : ascii) : bool :=
  ((N_of_ascii lo <=? N_of_ascii c) && (N_of_ascii c <=? N_of_ascii hi))%N.

(** [shouldEscape(c, encodeQueryComponent)]: letters, digits and
    [-], [_], [.], [~] are kept, every other byte is escaped. *)
Definition shouldEscape (c : ascii) : bool :=
  negb (between "a" "z" c || between "A" "Z" c || between "0" "9" c
        || Ascii.eqb c "-" || Ascii.eqb c "_" || Ascii.eqb c "."
        || Ascii.eqb c "~").

Fixpoint QueryEscape (s : string) : string :=
  match s with
  | EmptyString => ""
  | String c s' =>
      if Ascii.eqb c " " then String "+" (QueryEscape s')
      else if shouldEscape c then
        String "%" (String (hexDigit (N_of_ascii c / 16))
          (String (hexDigit (N_of_ascii c mod 16)) (QueryEscape s')))
      else String c (QueryEscape s')
  end.

(** [unhex]. *)
Definition unhex (c : ascii) : option N :=
  let n := N_of_ascii c in
  if between "0" "9" c then Some (n - 48)%N
  else if between "a" "f" c then Some (n - 97 + 10)%N
  else if between "A" "F" c then Some (n - 65 + 10)%N
  else None.

Fixpoint QueryUnescape (s : string) : option string :=
  match s with
  | EmptyString => Some ""
  | String "%" (String h (String l s')) =>
      match unhex h, unhex l with
      | Some x, Some y =>
          String (ascii_of_N (x * 16 + y)) <$> QueryUnescape s'
      | _, _ => None
      end
  | String "%" _ => None
  | String "+" s' => String " "%char <$> QueryUnescape s'
  | String c s' => String c <$> QueryUnescape s'
  end.

(** [url.Values], a [map[string][]string]. *)
Definition Values := gmap string (list string).

(** [slices.Sort] on the keys of the map. *)
Definition sortedKeys (v : Values) : list string :=
  insertion_sort String.ltb (map_to_list v).*1.

(** [Values.Encode]: ["k=v"] pairs, escaped, in the order of the sorted
    keys, joined with [&]. *)
Definition Encode (v : Values) : string :=
  GoString.Join
    (k ← sortedKeys v;
     (λ x, QueryEscape k +:+ "=" +:+ QueryEscape x) <$> default [] (v !! k))
    "&".

End url.

(** ** Package [oauth] *)

Module oauth.

Module TokenResponse.
Record t := mk {
  AccessToken : string;
  BotToken : string;
  UserID : string;
  TeamID : string;
  BotUserID : string;
  ExpiresAt : time.Time;
}.
End TokenResponse.

Module TokenInfo.
Record t := mk {
  UserID : string;
  TeamID : string;
}.
End TokenInfo.

(** [TokenStorage]: [Store] and [Get] over a store of state [S]. *)
Class TokenStorage (S : Type) := {
  Store : S → string → TokenResponse.t → S * option error;
  Get : S → string → TokenResponse.t + error;
}.

(** [MemoryStorage]: the [tokens] map (the lock guards it and has no
    sequential content). *)
Module MemoryStorage.
Record t := mk { tokens : gmap string TokenResponse.t }.

Definition NewMemoryStorage : t := mk ∅.

Definition Store (s : t) (userID : string) (token : TokenResponse.t)
  : t * option error :=
  (mk (<[userID := token]> (tokens s)), None).

Definition Get (s : t) (userID : string) : TokenResponse.t + error :=
  match tokens s !! userID with
  | Some token => inl token
  | None => inr ("token not found for user " +:+ userID)
  end.
End MemoryStorage.

#[global] Instance MemoryStorage_TokenStorage : TokenStorage MemoryStorage.t :=
  {| Store := MemoryStorage.Store; Get := MemoryStorage.Get |}.

(** The upstream, as the manager's [httpClient] sees it.  A call either
    fails in transport, or returns a body that does not decode, or returns
    the decoded JSON object. *)
Inductive HTTPResult (A : Type) :=
  | TransportError (err : error)
  | DecodeError (err : error)
  | Decoded (result : A).
Arguments TransportError {A} err.
Arguments DecodeError {A} err.
Arguments Decoded {A} result.

(** The anonymous [result] struct of [HandleCallback]. *)
Module AccessResult.
Record t := mk {
  OK : bool;
  Error : string;
  AccessToken : string;
  AuthedUser_ID : string;
  AuthedUser_AccessToken : string;
  BotUserID : string;
  Team_ID : string;
  Team_Name : string;
}.
End AccessResult.

(** The anonymous [result] struct of [ValidateToken]. *)
Module AuthTestResult.
Record t := mk {
  OK : bool;
  Error : string;
  UserID : string;
  TeamID : string;
}.
End AuthTestResult.

(** The two endpoints: [POST https://slack.com/api/oauth.v2.access] with a
    form, and [POST https://slack.com/api/auth.test] with a bearer token. *)
Record Upstream := {
  oauth_v2_access : url.Values → HTTPResult AccessResult.t;
  auth_test : string → HTTPResult AuthTestResult.t;
}.

Module Manager.
Record t := mk {
  clientID : string;
  clientSecret : string;
  redirectURI : string;
}.
End Manager.

Definition NewManager (clientID clientSecret redirectURI : string) : Manager.t :=
  Manager.mk clientID clientSecret redirectURI.

Definition userScopes : list string :=
  [ "channels:history"; "channels:read"; "groups:history"; "groups:read";
    "im:history"; "im:read"; "im:write"; "mpim:history"; "mpim:read";
    "mpim:write"; "users:read"; "chat:write"; "search:read" ].

Definition botScopes : list string :=
  [ "channels:history"; "channels:read"; "groups:history"; "groups:read";
    "im:history"; "im:read"; "im:write"; "mpim:history"; "mpim:read";
    "mpim:write"; "users:read"; "chat:write" ].

Definition authParams (m : Manager.t) (state : string) : url.Values :=
  <["state" := [state]]>
  (<["redirect_uri" := [Manager.redirectURI m]]>
  (<["user_scope" := [GoString.Join userScopes ","]]>
  (<["scope" := [GoString.Join botScopes ","]]>
  {["client_id" := [Manager.clientID m]]}))).

Definition GetAuthURL (m : Manager.t) (state : string) : string :=
  "https://slack.com/oauth/v2/authorize?" +:+ url.Encode (authParams m state).

(** The form [HandleCallback] posts. *)
Definition accessForm (m : Manager.t) (code : string) : url.Values :=
  <["redirect_uri" := [Manager.redirectURI m]]>
  (<["code" := [code]]>
  (<["client_secret" := [Manager.clientSecret m]]>
  {["client_id" := [Manager.clientID m]]})).

Section Manager_methods.
Context {S : Type} `{TokenStorage S}.

(** [Manager.HandleCallback].  [now] is the reading of [time.Now()];
    the store is threaded through. *)
Definition HandleCallback (m : Manager.t) (up : Upstream) (now : time.Time)
    (storage : S) (code state : string)
  : (TokenResponse.t + error) * S :=
  let data := accessForm m code in
  match oauth_v2_access up data with
  | TransportError err => (inr ("failed to exchange code: " +:+ err), storage)
  | DecodeError err => (inr ("failed to decode response: " +:+ err), storage)
  | Decoded result =>
      if negb (AccessResult.OK result)
      then (inr ("slack error: " +:+ AccessResult.Error result), storage)
      else
        let token := TokenResponse.mk
          (AccessResult.AuthedUser_AccessToken result)
          (AccessResult.AccessToken result)
          (AccessResult.AuthedUser_ID result)
          (AccessResult.Team_ID result)
          (AccessResult.BotUserID result)
          (time.Add now (365 * 24 * time.Hour)) in
        match Store storage (TokenResponse.UserID token) token with
        | (storage', Some err) =>
            (inr ("failed to store token: " +:+ err), storage')
        | (storage', None) => (inl token, storage')
        end
  end.

(** [Manager.ValidateToken].  [http.NewRequest] with a constant method
    and URL does not fail. *)
Definition ValidateToken (up : Upstream) (accessToken : string)
  : TokenInfo.t + error :=
  match auth_test up accessToken with
  | TransportError err => inr err
  | DecodeError err => inr err
  | Decoded result =>
      if negb (AuthTestResult.OK result)
      then inr ("invalid token: " +:+ AuthTestResult.Error result)
      else inl (TokenInfo.mk (AuthTestResult.UserID result)
                             (AuthTestResult.TeamID result))
  end.

(** [Manager.GetStoredToken]. *)
Definition GetStoredToken (storage : S) (userID : string)
  : TokenResponse.t + error :=
  Get storage userID.
End Manager_methods.

(** The [OAuthManager] interface, for a manager whose state is [M]. *)
Class OAuthManager (M : Type) := {
  mgr_GetAuthURL : M → string → string;
  mgr_HandleCallback : M → string → string → (TokenResponse.t + error) * M;
  mgr_ValidateToken : M → string → TokenInfo.t + error;
  mgr_GetStoredToken : M → string → TokenResponse.t + error;
}.

(** [*Manager] as an [OAuthManager]: the configuration, the upstream and
    the clock it runs against, and its store. *)
Module LiveManager.
Record t (S : Type) := mk {
  config : Manager.t;
  upstream : Upstream;
  clock : time.Time;
  storage : S;
}.
Arguments mk {S}.
Arguments config {S}.
Arguments upstream {S}.
Arguments clock {S}.
Arguments storage {S}.
End LiveManager.

#[global] Instance Manager_OAuthManager {S} `{TokenStorage S}
  : OAuthManager (LiveManager.t S) := {|
  mgr_GetAuthURL m state := GetAuthURL (LiveManager.config m) state;
  mgr_HandleCallback m code state :=
    let '(r, storage') :=
      HandleCallback (LiveManager.config m) (LiveManager.upstream m)
        (LiveManager.clock m) (LiveManager.storage m) code state in
    (r, LiveManager.mk (LiveManager.config m) (LiveManager.upstream m)
          (LiveManager.clock m) storage');
  mgr_ValidateToken m accessToken :=
    ValidateToken (LiveManager.upstream m) accessToken;
  mgr_GetStoredToken m userID := GetStoredToken (LiveManager.storage m) userID;
|}.

End oauth.


(** ** Package [server]: the OAuth endpoints and the CSRF state registry *)

Module server.

(** What a handler wrote to its [http.ResponseWriter]: the status, the
    headers it set, and the body: the JSON object of a success, or the text
    of [http.Error]. *)
Inductive Body :=
  | JSON (fields : gmap string string)
  | Text (msg : string).

Module Response.
Record t := mk {
  status : Z;
  headers : gmap string string;
  body : Body;
}.
End Response.

Definition StatusOK : Z := 200.
Definition StatusBadRequest : Z := 400.
Definition StatusInternalServerError : Z := 500.

(** [http.Error]. *)
Definition httpError (msg : string) (code : Z) : Response.t :=
  Response.mk code
    (<["X-Content-Type-Options" := "nosniff"]>
       {["Content-Type" := "text/plain; charset=utf-8"]})
    (Text msg).

(** [OAuthHandler]: the manager behind its interface and the [states] map
    from state token to expiry. *)
Module OAuthHandler.
Record t (M : Type) := mk {
  manager : M;
  states : gmap string time.Time;
}.
Arguments mk {M}.
Arguments manager {M}.
Arguments states {M}.
End OAuthHandler.

(** The body of the loop of [cleanupStates], on the map. *)
Definition sweep (states : gmap string time.Time) (now : time.Time)
  : gmap string time.Time :=
  filter (λ kv, time.After now kv.2 = false) states.

Section OAuthHandler_methods.
Context {M : Type} `{oauth.OAuthManager M}.

Definition NewOAuthHandler (mgr : M) : OAuthHandler.t M :=
  OAuthHandler.mk mgr ∅.

(** [HandleAuthorize].  [state] is the token [generateState()] returned,
    [now] the reading of [time.Now()]. *)
Definition HandleAuthorize (h : OAuthHandler.t M) (state : string)
    (now : time.Time) : Response.t * OAuthHandler.t M :=
  let states := <[state := time.Add now (10 * time.Minute)]> (OAuthHandler.states h) in
  let authURL := oauth.mgr_GetAuthURL (OAuthHandler.manager h) state in
  (Response.mk StatusOK
     (<["X-XSS-Protection" := "1; mode=block"]>
        (<["X-Frame-Options" := "DENY"]>
           (<["X-Content-Type-Options" := "nosniff"]>
              {["Content-Type" := "application/json"]})))
     (JSON (<["state" := state]> {["authorization_url" := authURL]})),
   OAuthHandler.mk (OAuthHandler.manager h) states).

(** The state verification of [HandleCallback]: the lookup and expiry check
    under the read lock, and, only past that check, the [delete] under the
    write lock.  The result is whether the state was accepted, with the map
    afterwards. *)
Definition verifyState (states : gmap string time.Time) (state : string)
    (now : time.Time) : bool * gmap string time.Time :=
  match states !! state with
  | None => (false, states)
  | Some expiry =>
      if time.After now expiry then (false, states)
      else (true, delete state states)
  end.

(** [HandleCallback] on the query parameters [code] and [state]. *)
Definition HandleCallback (h : OAuthHandler.t M) (code state : string)
    (now : time.Time) : Response.t * OAuthHandler.t M :=
  if String.eqb code "" || String.eqb state ""
  then (httpError "Missing code or state" StatusBadRequest, h)
  else
    match verifyState (OAuthHandler.states h) state now with
    | (false, _) => (httpError "Invalid or expired state" StatusBadRequest, h)
    | (true, states) =>
        match oauth.mgr_HandleCallback (OAuthHandler.manager h) code state with
        | (inr err, mgr) =>
            (httpError "Authentication failed" StatusInternalServerError,
             OAuthHandler.mk mgr states)
        | (inl token, mgr) =>
            let response : gmap string string :=
              <["message" := "Authentication successful! Use this access_token in your MCP client."]>
              (<["team_id" := oauth.TokenResponse.TeamID token]>
              (<["user_id" := oauth.TokenResponse.UserID token]>
              {["access_token" := oauth.TokenResponse.AccessToken token]})) in
            let response :=
              if negb (String.eqb (oauth.TokenResponse.BotToken token) "")
              then
                <["message" := "Authentication successful! Both user and bot tokens received. Messages will post as bot when post_as_bot=true."]>
                (<["bot_user_id" := oauth.TokenResponse.BotUserID token]>
                (<["bot_token" := oauth.TokenResponse.BotToken token]> response))
              else response in
            (Response.mk StatusOK
               (<["Pragma" := "no-cache"]>
               (<["Cache-Control" := "no-store, no-cache, must-revalidate, private"]>
               (<["X-XSS-Protection" := "1; mode=block"]>
               (<["X-Frame-Options" := "DENY"]>
               (<["X-Content-Type-Options" := "nosniff"]>
               {["Content-Type" := "application/json"]})))))
               (JSON response),
             OAuthHandler.mk mgr states)
        end
    end.

(** One tick of [cleanupStates]: every entry whose expiry has passed is
    deleted. *)
Definition cleanupStates (h : OAuthHandler.t M) (now : time.Time)
  : OAuthHandler.t M :=
  OAuthHandler.mk (OAuthHandler.manager h) (sweep (OAuthHandler.states h) now).

End OAuthHandler_methods.

End server.

(** ** Package [auth]: the request context and the OAuth middleware *)

Module auth.

Module UserContext.
Record t := mk {
  UserID : string;
  TeamID : string;
  AccessToken : string;
  BotToken : string;
  BotUserID : string;
}.
End UserContext.

(** The two values of a [context.Context] this package reads and writes:
    the one under [authKey{}], when it is a string, and the one under
    [userContextKey{}]. *)
Module Context.
Record t := mk {
  authValue : option string;
  userContext : option UserContext.t;
}.
End Context.

Definition WithUserContext (ctx : Context.t) (user : UserContext.t) : Context.t :=
  Context.mk (Context.authValue ctx) (Some user).

Definition FromContext (ctx : Context.t) : option UserContext.t :=
  Context.userContext ctx.

Section OAuthMiddleware.
Context {M : Type} `{oauth.OAuthManager M}.
Context {Request Result : Type}.

(** [OAuthMiddleware(oauthMgr, logger)(next)(ctx, req)]. *)
Definition OAuthMiddleware (oauthMgr : M)
    (next : Context.t → Request → Result + error)
    (ctx : Context.t) (req : Request) : Result + error :=
  match Context.authValue ctx with
  | None => inr "missing authentication token"
  | Some token =>
      let token := GoString.TrimPrefix token "Bearer " in
      match oauth.mgr_ValidateToken oauthMgr token with
      | inr err => inr ("invalid authentication token: " +:+ err)
      | inl tokenInfo =>
          let storedToken :=
            match oauth.mgr_GetStoredToken oauthMgr (oauth.TokenInfo.UserID tokenInfo) with
            | inl storedToken => storedToken
            | inr _ =>
                oauth.TokenResponse.mk token "" (oauth.TokenInfo.UserID tokenInfo)
                  (oauth.TokenInfo.TeamID tokenInfo) "" time.Zero
            end in
          let userCtx := UserContext.mk
            (oauth.TokenInfo.UserID tokenInfo)
            (oauth.TokenInfo.TeamID tokenInfo)
            token
            (oauth.TokenResponse.BotToken storedToken)
            (oauth.TokenResponse.BotUserID storedToken) in
          next (WithUserContext ctx userCtx) req
      end
  end.

End OAuthMiddleware.

End auth.


(** ** Package [handler]: channel listing *)

Module provider.

(** The fields of [provider.Channel] the handler reads. *)
Module Channel.
Record t := mk {
  ID : string;
  Name : string;
  Topic : string;
  Purpose : string;
  MemberCount : Z;
  IsPrivate : bool;
  IsIM : bool;
  IsMpIM : bool;
}.
End Channel.

#[global] Instance Channel_eq_dec : EqDecision Channel.t.
Proof. solve_decision. Defined.

(** Modelled from the spec: the constants [provider.PubChanType] and
    [provider.PrivateChanType], declared outside the files at hand; the
    default category set is public and private, and these are the tags
    [filterChannelsByTypes] tests for them. *)
Definition PubChanType : string := "public_channel".
Definition PrivateChanType : string := "private_channel".

(** Modelled from the spec: [provider.AllChanTypes], declared outside the
    files at hand: the recognized category tags, multi-party, direct, public
    and private, under the names [filterChannelsByTypes] tests. *)
Definition AllChanTypes : list string :=
  ["mpim"; "im"; PubChanType; PrivateChanType].

(** [provider.ApiProvider], as the handler uses it: [IsReady()], and
    [ProvideChannelsMaps().Channels], a map from channel id to channel,
    given by its channels in the order in which the [range] of
    [filterChannelsByTypes] visits them. *)
Module ApiProvider.
Record t := mk {
  IsReady : bool * error;
  Channels : list Channel.t;
}.
End ApiProvider.

End provider.

(** The part of [github.com/slack-go/slack] the OAuth mode uses. *)
Module slack.

Module Channel.
Record t := mk {
  ID : string;
  Name : string;
  Topic_Value : string;
  Purpose_Value : string;
  NumMembers : Z;
}.
End Channel.

Module GetConversationsParameters.
Record t := mk {
  Types : list string;
  Limit : Z;
  ExcludeArchived : bool;
}.
End GetConversationsParameters.

(** [slack.New(token).GetConversations(params)]: the channels and the
    upstream's own cursor, or an error. *)
Definition API : Type :=
  string → GetConversationsParameters.t → (list Channel.t * string) + error.

End slack.

Module handler.

Module Channel.
Record t := mk {
  ID : string;
  Name : string;
  Topic : string;
  Purpose : string;
  MemberCount : Z;
  Cursor : string;
}.
End Channel.

(** The arguments of a tool call, as [GetString] and [GetInt] read them:
    [None] is an argument that is absent. *)
Module CallToolRequest.
Record t := mk {
  sort : option string;
  channel_types : option string;
  cursor : option string;
  limit : option Z;
}.
End CallToolRequest.

(** The [ChannelsHandler] struct: the provider of the legacy mode, the mode
    and the valid channel types (the token storage and the logger are not
    read by the code below). *)
Module ChannelsHandler.
Record t := mk {
  apiProvider : provider.ApiProvider.t;
  oauthEnabled : bool;
  validTypes : gmap string bool;
}.
End ChannelsHandler.

(** [NewChannelsHandler] and [NewChannelsHandlerWithOAuth]; in OAuth mode
    there is no provider, and none is read. *)
Definition NewChannelsHandler (apiProvider : provider.ApiProvider.t)
  : ChannelsHandler.t :=
  ChannelsHandler.mk apiProvider false
    (foldl (λ validTypes v, <[v := true]> validTypes) ∅ provider.AllChanTypes).

Definition NewChannelsHandlerWithOAuth : ChannelsHandler.t :=
  ChannelsHandler.mk (provider.ApiProvider.mk (false, "") []) true
    (foldl (λ validTypes v, <[v := true]> validTypes) ∅ provider.AllChanTypes).

(** [ch.apiProvider.ProvideChannelsMaps().Channels]. *)
Definition allChannels (ch : ChannelsHandler.t) : list provider.Channel.t :=
  provider.ApiProvider.Channels (ChannelsHandler.apiProvider ch).

(** [getSlackClient]: the client is given by the token it was made with. *)
Definition getSlackClient (ch : ChannelsHandler.t) (ctx : auth.Context.t)
  : string + error :=
  if negb (ChannelsHandler.oauthEnabled ch) then inr "OAuth not enabled"
  else match auth.FromContext ctx with
       | None => inr "user context not found"
       | Some userCtx => inl (auth.UserContext.AccessToken userCtx)
       end.

(** One iteration of the loop of [filterChannelsByTypes]: the four tests,
    each appending the channel to [result]. *)
Definition filterStep (typeSet : gmap string bool)
    (result : list provider.Channel.t) (ch : provider.Channel.t)
  : list provider.Channel.t :=
  let result :=
    if mapBool typeSet "public_channel"
       && negb (provider.Channel.IsPrivate ch)
       && negb (provider.Channel.IsIM ch) && negb (provider.Channel.IsMpIM ch)
    then (result ++ [ch])%list else result in
  let result :=
    if mapBool typeSet "private_channel"
       && provider.Channel.IsPrivate ch
       && negb (provider.Channel.IsIM ch) && negb (provider.Channel.IsMpIM ch)
    then (result ++ [ch])%list else result in
  let result :=
    if mapBool typeSet "im" && provider.Channel.IsIM ch
    then (result ++ [ch])%list else result in
  let result :=
    if mapBool typeSet "mpim" && provider.Channel.IsMpIM ch
    then (result ++ [ch])%list else result in
  result.

Definition filterChannelsByTypes (channels : list provider.Channel.t)
    (types : list string) : list provider.Channel.t :=
  let typeSet : gmap string bool :=
    foldl (λ m t, <[t := true]> m) ∅ types in
  foldl (filterStep typeSet) [] channels.

(** The [less] function [paginateChannels] sorts with: by ascending id. *)
Definition byID (a b : provider.Channel.t) : bool :=
  GoString.lt (provider.Channel.ID a) (provider.Channel.ID b).

(** The loop of [paginateChannels] that looks for the first channel past
    [lastID]: [i] is the index of the head of [channels]; [startIndex] stays
    0 when the loop finds none. *)
Fixpoint findStart (channels : list provider.Channel.t) (lastID : string)
    (i : Z) : Z :=
  match channels with
  | [] => 0
  | ch :: rest =>
      if GoString.gt (provider.Channel.ID ch) lastID then i
      else findStart rest lastID (i + 1)
  end.

Section with_runtime.
Context `{GoRuntime}.

Definition paginateChannels (channels : list provider.Channel.t)
    (cursor : string) (limit : Z)
  : option (list provider.Channel.t * string) :=
  let channels :=
    sort_Slice byID channels in
  let startIndex :=
    if negb (String.eqb cursor "") then
      match base64.DecodeString cursor with
      | Some lastID => findStart channels lastID 0
      | None => 0
      end
    else 0 in
  let endIndex := wrap_int (startIndex + limit) in
  let endIndex :=
    if endIndex >? Z.of_nat (length channels) then Z.of_nat (length channels)
    else endIndex in
  paged ← slice channels startIndex endIndex;
  if endIndex <? Z.of_nat (length channels) then
    lastCh ← index channels (endIndex - 1);
    Some (paged, base64.EncodeToString (provider.Channel.ID lastCh))
  else Some (paged, "").

(** [paginateChannels] in two steps, for the proofs: the start index in the
    sorted slice, and the page cut from it. *)
Definition startIndexOf (sorted : list provider.Channel.t) (cursor : string) : Z :=
  if negb (String.eqb cursor "") then
    match base64.DecodeString cursor with
    | Some lastID => findStart sorted lastID 0
    | None => 0
    end
  else 0.

Definition pageFrom (sorted : list provider.Channel.t) (startIndex limit : Z)
  : option (list provider.Channel.t * string) :=
  let endIndex := wrap_int (startIndex + limit) in
  let endIndex :=
    if endIndex >? Z.of_nat (length sorted) then Z.of_nat (length sorted)
    else endIndex in
  paged ← slice sorted startIndex endIndex;
  if endIndex <? Z.of_nat (length sorted) then
    lastCh ← index sorted (endIndex - 1);
    Some (paged, base64.EncodeToString (provider.Channel.ID lastCh))
  else Some (paged, "").

(** The loop over the comma-separated channel types of a request: the
    trimmed tags that are valid. *)
Definition validChannelTypes (validTypes : gmap string bool) (types : string)
  : list string :=
  foldl (λ channelTypes t,
    let t := strings_TrimSpace t in
    if mapBool validTypes t then (channelTypes ++ [t])%list else channelTypes)
    [] (GoString.SplitByte types ",").

(** The channel types of a request in legacy mode: public and private when
    none is valid. *)
Definition parseChannelTypes (validTypes : gmap string bool) (types : string)
  : list string :=
  let channelTypes := validChannelTypes validTypes types in
  if (length channelTypes =? 0)%nat
  then ((channelTypes ++ [provider.PubChanType]) ++ [provider.PrivateChanType])%list
  else channelTypes.

(** The limit of a request: 100 when zero, at most 999. *)
Definition effectiveLimit (limit : Z) : Z :=
  let limit := if limit =? 0 then 100 else limit in
  if limit >? 999 then 999 else limit.

Definition toRow (channel : provider.Channel.t) : Channel.t :=
  Channel.mk (provider.Channel.ID channel) (provider.Channel.Name channel)
    (provider.Channel.Topic channel) (provider.Channel.Purpose channel)
    (provider.Channel.MemberCount channel) "".

Definition withCursor (row : Channel.t) (cursor : string) : Channel.t :=
  Channel.mk (Channel.ID row) (Channel.Name row) (Channel.Topic row)
    (Channel.Purpose row) (Channel.MemberCount row) cursor.

(** [channelList[len(channelList)-1].Cursor = nextcur]. *)
Definition setLastCursor (channelList : list Channel.t) (nextcur : string)
  : list Channel.t :=
  alter (λ row, withCursor row nextcur) (length channelList - 1)%nat channelList.

(** The legacy mode of [ChannelsHandler], first half: the request is read,
    the channels are filtered and [paginateChannels] is called. *)
Definition listPage (ch : ChannelsHandler.t) (request : CallToolRequest.t)
  : option (list provider.Channel.t * string) :=
  let types := default provider.PubChanType (CallToolRequest.channel_types request) in
  let cursor := default "" (CallToolRequest.cursor request) in
  let limit := default 0 (CallToolRequest.limit request) in
  let channelTypes := parseChannelTypes (ChannelsHandler.validTypes ch) types in
  let limit := effectiveLimit limit in
  let channels := filterChannelsByTypes (allChannels ch) channelTypes in
  paginateChannels channels cursor limit.

(** The legacy mode of [ChannelsHandler], past the [IsReady] test: the
    listing of the specification.  The result is the list handed to the CSV
    encoder. *)
Definition channelsHandlerLegacy (ch : ChannelsHandler.t)
    (request : CallToolRequest.t) : option (list Channel.t) :=
  let sortType := default "popularity" (CallToolRequest.sort request) in
  '(chans, nextcur) ← listPage ch request;
  let channelList := toRow <$> chans in
  let channelList :=
    if String.eqb sortType "popularity"
    then sort_Slice (λ a b, Channel.MemberCount a >? Channel.MemberCount b)
           channelList
    else channelList in
  let channelList :=
    if (0 <? length channelList)%nat && negb (String.eqb nextcur "")
    then setLastCursor channelList nextcur
    else channelList in
  Some channelList.

(** The loop of [channelsHandlerOAuth] over the channel types: one upstream
    call for each, the first error ends it. *)
Fixpoint fetchChannels (api : slack.API) (client : string) (limit : Z)
    (channelTypes : list string) (allChannels : list Channel.t)
  : list Channel.t + error :=
  match channelTypes with
  | [] => inl allChannels
  | chanType :: rest =>
      match api client
              (slack.GetConversationsParameters.mk [chanType] limit true) with
      | inr err => inr ("failed to get channels: " +:+ err)
      | inl (channels, _) =>
          fetchChannels api client limit rest
            (allChannels ++
               ((λ c, Channel.mk (slack.Channel.ID c) ("#" +:+ slack.Channel.Name c)
                        (slack.Channel.Topic_Value c) (slack.Channel.Purpose_Value c)
                        (slack.Channel.NumMembers c) "") <$> channels))%list
      end
  end.

(** [channelsHandlerOAuth]: no cursor, and the limit goes to the upstream as
    it is. *)
Definition channelsHandlerOAuth (ch : ChannelsHandler.t) (api : slack.API)
    (ctx : auth.Context.t) (request : CallToolRequest.t)
  : list Channel.t + error :=
  match getSlackClient ch ctx with
  | inr err => inr ("authentication error: " +:+ err)
  | inl client =>
      let types := default "public_channel" (CallToolRequest.channel_types request) in
      let limit := default 100 (CallToolRequest.limit request) in
      let channelTypes := validChannelTypes (ChannelsHandler.validTypes ch) types in
      let channelTypes :=
        if (length channelTypes =? 0)%nat
        then ["public_channel"; "private_channel"] else channelTypes in
      match fetchChannels api client limit channelTypes [] with
      | inr err => inr err
      | inl allChannels =>
          let sortType := default "" (CallToolRequest.sort request) in
          inl (if String.eqb sortType "popularity"
               then sort_Slice
                      (λ a b, Channel.MemberCount a >? Channel.MemberCount b)
                      allChannels
               else allChannels)
      end
  end.

(** [ChannelsHandler]: the OAuth mode, or the legacy mode when the provider
    is ready.  [None] is a panic, [Some (inr _)] an error, [Some (inl _)]
    the rows of the CSV. *)
Definition ChannelsHandler (ch : ChannelsHandler.t) (api : slack.API)
    (ctx : auth.Context.t) (request : CallToolRequest.t)
  : option (list Channel.t + error) :=
  if ChannelsHandler.oauthEnabled ch
  then Some (channelsHandlerOAuth ch api ctx request)
  else
    match provider.ApiProvider.IsReady (ChannelsHandler.apiProvider ch) with
    | (false, err) => Some (inr err)
    | (true, _) => inl <$> channelsHandlerLegacy ch request
    end.

(** The cursor a client reads off a result: the [Cursor] column of its
    last row. *)
Definition cursorOf (channelList : list Channel.t) : string :=
  default "" (Channel.Cursor <$> last channelList).

End with_runtime.

End handler.


(** ** Sample data

    Small instances on which the definitions above can be run. *)

Definition rejectingUpstream : oauth.Upstream := {|
  oauth.oauth_v2_access _ :=
    oauth.Decoded (oauth.AccessResult.mk false "invalid_code" "" "" "" "" "" "");
  oauth.auth_test _ :=
    oauth.Decoded (oauth.AuthTestResult.mk false "invalid_auth" "" "");
|}.

(** An upstream that knows the token [xoxp-1] of user [U1] in team [T1]. *)
Definition oneUserUpstream : oauth.Upstream := {|
  oauth.oauth_v2_access _ :=
    oauth.Decoded (oauth.AccessResult.mk true "" "xoxb-9" "U1" "xoxp-1" "B9" "T1" "team");
  oauth.auth_test accessToken :=
    if String.eqb accessToken "xoxp-1"
    then oauth.Decoded (oauth.AuthTestResult.mk true "" "U1" "T1")
    else oauth.Decoded (oauth.AuthTestResult.mk false "invalid_auth" "" "");
|}.

Definition freshManager : oauth.LiveManager.t oauth.MemoryStorage.t :=
  oauth.LiveManager.mk (oauth.NewManager "id" "secret" "https://example.org/cb")
    oneUserUpstream 0 oauth.MemoryStorage.NewMemoryStorage.

(** The same manager after a store for [U1] whose access token is not the
    one the client presents. *)
Definition staleManager : oauth.LiveManager.t oauth.MemoryStorage.t :=
  oauth.LiveManager.mk (oauth.NewManager "id" "secret" "https://example.org/cb")
    oneUserUpstream 0
    (oauth.MemoryStorage.Store oauth.MemoryStorage.NewMemoryStorage "U1"
       (oauth.TokenResponse.mk "xoxp-old" "xoxb-9" "U1" "T1" "B9" 0)).1.

Definition echoIdentity (ctx : auth.Context.t) (_ : unit)
  : option auth.UserContext.t + error :=
  inl (auth.FromContext ctx).

Definition oneChannel : handler.ChannelsHandler.t :=
  handler.NewChannelsHandler
    (provider.ApiProvider.mk (true, "")
       [provider.Channel.mk "C1" "general" "" "" 3 false false false]).

(** A cache of 250 channels, [C000] to [C249]; two in five are private. *)
Definition digit (d : nat) : ascii := ascii_of_nat (48 + d).

Definition channelNo (i : nat) : provider.Channel.t :=
  provider.Channel.mk
    (String "C" (String (digit (i / 100)) (String (digit (i / 10 mod 10))
       (String (digit (i mod 10)) ""))))
    "" "" "" (Z.of_nat (i * 7 mod 31)) (i mod 5 <? 2)%nat false false.

Definition cache250 : handler.ChannelsHandler.t :=
  handler.NewChannelsHandler
    (provider.ApiProvider.mk (true, "") (channelNo <$> seq 0 250)).

(** The same cache, visited from its other end. *)
Definition cache250backwards : handler.ChannelsHandler.t :=
  handler.NewChannelsHandler
    (provider.ApiProvider.mk (true, "") (reverse (channelNo <$> seq 0 250))).

(** The id, member count and cursor of the rows of a result. *)
Definition summary (rows : list handler.Channel.t) : list (string * Z * string) :=
  (λ row, (handler.Channel.ID row, handler.Channel.MemberCount row,
           handler.Channel.Cursor row)) <$> rows.

Definition escapedBotScopes : string :=
  "channels%3Ahistory%2Cchannels%3Aread%2Cgroups%3Ahistory%2Cgroups%3Aread%2Cim%3Ahistory%2Cim%3Aread%2Cim%3Awrite%2Cmpim%3Ahistory%2Cmpim%3Aread%2Cmpim%3Awrite%2Cusers%3Aread%2Cchat%3Awrite".

Definition escapedUserScopes : string :=
  "channels%3Ahistory%2Cchannels%3Aread%2Cgroups%3Ahistory%2Cgroups%3Aread%2Cim%3Ahistory%2Cim%3Aread%2Cim%3Awrite%2Cmpim%3Ahistory%2Cmpim%3Aread%2Cmpim%3Awrite%2Cusers%3Aread%2Cchat%3Awrite%2Csearch%3Aread".

(** ** More sample data *)

(** A storage that holds an older record of [U1]. *)
Definition staleStorage : oauth.MemoryStorage.t :=
  (oauth.MemoryStorage.Store oauth.MemoryStorage.NewMemoryStorage "U1"
     (oauth.TokenResponse.mk "xoxp-old" "xoxb-9" "U1" "T1" "B9" 0)).1.

(** Two upstreams for the OAuth mode: one answers every token, the other
    only the token [xoxp-1]. *)
Definition generalOnly : slack.API :=
  λ token params, inl ([slack.Channel.mk "C1" "general" "" "" 3], "").

Definition generalForOne : slack.API :=
  λ token params,
    if String.eqb token "xoxp-1"
    then inl ([slack.Channel.mk "C1" "general" "" "" 3], "")
    else inr "invalid_auth".


(** * Properties *)

(** Goals about quotients and remainders by constants, from [N] or [Z]. *)
Ltac div_mod_lia := zify; Z.to_euclidean_division_equations; lia.

(** Case analysis on every test of the goal. *)
Ltac destruct_tests :=
  repeat match goal with |- context [if ?b then _ else _] => destruct b end.

(** ** The order on strings *)

Lemma ascii_compare_refl (a : ascii) : Ascii.compare a a = Eq.
Proof. unfold Ascii.compare. apply N.compare_refl. Qed.

Lemma string_compare_refl (s : string) : String.compare s s = Eq.
Proof. induction s as [|a s IH]; simpl; [done|]. by rewrite ascii_compare_refl. Qed.

Lemma string_compare_lt_trans (s1 s2 s3 : string) :
  String.compare s1 s2 = Lt → String.compare s2 s3 = Lt →
  String.compare s1 s3 = Lt.
Proof.
  revert s2 s3. induction s1 as [|a s1 IH]; intros [|b s2] [|c s3]; simpl; try done.
  unfold Ascii.compare.
  destruct (N.compare_spec (N_of_ascii a) (N_of_ascii b)) as [Hab|Hab|Hab]; try done;
    destruct (N.compare_spec (N_of_ascii b) (N_of_ascii c)) as [Hbc|Hbc|Hbc]; try done;
    intros H12 H23.
  - rewrite Hab, Hbc, N.compare_refl. eauto.
  - rewrite Hab. by apply N.compare_lt_iff in Hbc as ->.
  - rewrite <- Hbc. by apply N.compare_lt_iff in Hab as ->.
  - assert (N_of_ascii a < N_of_ascii c)%N as Hac by lia.
    by apply N.compare_lt_iff in Hac as ->.
Qed.

Lemma string_ltb_irrefl (s : string) : String.ltb s s = false.
Proof. unfold String.ltb. by rewrite string_compare_refl. Qed.

Lemma string_ltb_asym (s1 s2 : string) :
  String.ltb s1 s2 = true → String.ltb s2 s1 = false.
Proof.
  unfold String.ltb. rewrite (String.compare_antisym s1 s2).
  by destruct (String.compare s2 s1).
Qed.

Lemma string_ltb_trans (s1 s2 s3 : string) :
  String.ltb s1 s2 = true → String.ltb s2 s3 = true → String.ltb s1 s3 = true.
Proof.
  unfold String.ltb. intros H12 H23.
  rewrite (string_compare_lt_trans s1 s2 s3); [done| |].
  - by destruct (String.compare s1 s2).
  - by destruct (String.compare s2 s3).
Qed.

Lemma string_ltb_total (s1 s2 : string) :
  String.ltb s1 s2 = false → String.ltb s2 s1 = false → s1 = s2.
Proof.
  unfold String.ltb. rewrite (String.compare_antisym s1 s2).
  destruct (String.compare s2 s1) eqn:Hc; try done.
  intros _ _. symmetry. by apply String.compare_eq_iff.
Qed.

(** [x <= y], i.e. [not (y < x)], is transitive. *)
Lemma string_ltb_negtrans (x y z : string) :
  String.ltb y x = false → String.ltb z y = false → String.ltb z x = false.
Proof.
  intros Hxy Hyz. destruct (String.ltb z x) eqn:Hzx; [|done].
  destruct (String.ltb x y) eqn:Hxy'.
  - by rewrite (string_ltb_trans z x y) in Hyz.
  - assert (x = y) as -> by by apply string_ltb_total.
    by rewrite Hzx in Hyz.
Qed.

Lemma StrictWeak_by_ID : StrictWeak handler.byID.
Proof.
  split.
  - intros x y. apply string_ltb_asym.
  - intros x y z. apply string_ltb_negtrans.
Qed.

(** ** Insertion sort meets the contract of [sort.Slice] *)

Lemma insert_by_perm {A} (less : A → A → bool) x l :
  insert_by less x l ≡ₚ x :: l.
Proof.
  induction l as [|y l IH]; simpl; [done|].
  destruct (less x y); [done|]. rewrite IH. apply Permutation_swap.
Qed.

Lemma insertion_sort_perm {A} (less : A → A → bool) l :
  insertion_sort less l ≡ₚ l.
Proof.
  induction l as [|x l IH]; simpl; [done|]. by rewrite insert_by_perm, IH.
Qed.

Lemma insert_by_sorted {A} (less : A → A → bool) x l :
  StrictWeak less →
  StronglySorted (λ a b, less b a = false) l →
  StronglySorted (λ a b, less b a = false) (insert_by less x l).
Proof.
  intros [Hasym Hneg]. induction 1 as [|y l Hl IH Hy]; simpl.
  - repeat constructor.
  - destruct (less x y) eqn:Hxy.
    + constructor; [by constructor|]. constructor; [by apply Hasym|].
      eapply Forall_impl; [exact Hy|]. intros z Hz. simpl in Hz.
      apply (Hneg x y z); [by apply Hasym | done].
    + constructor; [done|].
      rewrite insert_by_perm. by constructor.
Qed.

Lemma insertion_sort_sorted {A} (less : A → A → bool) l :
  StrictWeak less →
  StronglySorted (λ a b, less b a = false) (insertion_sort less l).
Proof.
  intros Hsw. induction l as [|x l IH]; simpl; [constructor|].
  by apply insert_by_sorted.
Qed.

#[global] Instance insertionRuntime : GoRuntime := {|
  sort_Slice := @insertion_sort;
  sort_Slice_perm := @insertion_sort_perm;
  sort_Slice_sorted := @insertion_sort_sorted;
  strings_TrimSpace := asciiTrimSpace;
|}.

(** ** The CSRF state registry *)

Section state_registry.
Context {M : Type} `{oauth.OAuthManager M}.

(** The callback leaves the registry as the state verification left it,
    whenever both query parameters are present. *)
Lemma HandleCallback_states (h : server.OAuthHandler.t M) code state now :
  code ≠ "" → state ≠ "" →
  server.OAuthHandler.states (server.HandleCallback h code state now).2
  = (server.verifyState (server.OAuthHandler.states h) state now).2.
Proof.
  intros Hc Hs. unfold server.HandleCallback.
  apply String.eqb_neq in Hc as ->. apply String.eqb_neq in Hs as ->. simpl.
  unfold server.verifyState.
  destruct (server.OAuthHandler.states h !! state) as [expiry|]; [|done].
  destruct (time.After now expiry); [done|].
  by destruct (oauth.mgr_HandleCallback _ _ _) as [[token|err] mgr].
Qed.

(** A callback whose state is unknown or expired is answered with 400. *)
Lemma HandleCallback_rejects (h : server.OAuthHandler.t M) code state now :
  (server.verifyState (server.OAuthHandler.states h) state now).1 = false →
  server.Response.status (server.HandleCallback h code state now).1
  = server.StatusBadRequest.
Proof.
  intros Hv. unfold server.HandleCallback.
  destruct (String.eqb code "" || String.eqb state ""); [done|].
  by destruct (server.verifyState _ _ _) as [[] ?].
Qed.

End state_registry.





(** ** The code exchange *)

Section exchange.
Context {S : Type} `{oauth.TokenStorage S}.

(** Whatever the upstream answers, an exchange that fails before [Store]
    is called leaves the store as it was. *)
Lemma HandleCallback_error_before_Store (m : oauth.Manager.t)
    (up : oauth.Upstream) now (storage : S) code state :
  (∀ r, oauth.oauth_v2_access up (oauth.accessForm m code) = oauth.Decoded r →
        oauth.AccessResult.OK r = false) →
  (oauth.HandleCallback m up now storage code state).2 = storage.
Proof.
  intros Hrej. unfold oauth.HandleCallback. cbv zeta.
  destruct (oauth.oauth_v2_access up _) as [err|err|r] eqn:Hup; [done..|].
  by rewrite (Hrej r).
Qed.

(** C4: when the upstream answers the exchange with [ok: false], the
    manager returns an error that carries the upstream's error string, and
    the credential store is the one it started with: nothing was written. *)
Theorem HandleCallback_rejected (m : oauth.Manager.t) (up : oauth.Upstream)
    (now : time.Time) (storage : S) (code state : string)
    (result : oauth.AccessResult.t) :
  oauth.oauth_v2_access up (oauth.accessForm m code) = oauth.Decoded result →
  oauth.AccessResult.OK result = false →
  oauth.HandleCallback m up now storage code state
  = (inr ("slack error: " +:+ oauth.AccessResult.Error result), storage).
Proof.
  intros Hup Hok. unfold oauth.HandleCallback. cbv zeta.
  by rewrite Hup, Hok.
Qed.

End exchange.

Lemma HandleCallback_rejected_witness :
  oauth.HandleCallback (oauth.NewManager "id" "secret" "https://example.org/cb")
    rejectingUpstream 0 oauth.MemoryStorage.NewMemoryStorage "code" "state"
  = (inr "slack error: invalid_code", oauth.MemoryStorage.NewMemoryStorage).
Proof.
  apply (HandleCallback_rejected (oauth.NewManager "id" "secret" "https://example.org/cb")
           rejectingUpstream 0 oauth.MemoryStorage.NewMemoryStorage "code" "state"
           (oauth.AccessResult.mk false "invalid_code" "" "" "" "" "" "")).
  - reflexivity.
  - reflexivity.
Defined.

(** ** The authentication middleware *)

Section middleware.
Context {M : Type} `{oauth.OAuthManager M}.
Context {Request Result : Type}.

(** C3: a bearer token that validates, for a user without a stored record,
    still reaches the wrapped handler, with an identity made of the
    validated user and team, the presented token as access token, and no
    bot token. *)
Theorem OAuthMiddleware_without_record (oauthMgr : M)
    (next : auth.Context.t → Request → Result + error)
    (ctx : auth.Context.t) (req : Request)
    (header : string) (tokenInfo : oauth.TokenInfo.t) (err : error) :
  auth.Context.authValue ctx = Some header →
  oauth.mgr_ValidateToken oauthMgr (GoString.TrimPrefix header "Bearer ")
    = inl tokenInfo →
  oauth.mgr_GetStoredToken oauthMgr (oauth.TokenInfo.UserID tokenInfo)
    = inr err →
  let userCtx := auth.UserContext.mk
    (oauth.TokenInfo.UserID tokenInfo) (oauth.TokenInfo.TeamID tokenInfo)
    (GoString.TrimPrefix header "Bearer ") "" "" in
  auth.OAuthMiddleware oauthMgr next ctx req
    = next (auth.WithUserContext ctx userCtx) req
  ∧ auth.FromContext (auth.WithUserContext ctx userCtx) = Some userCtx.
Proof.
  intros Hctx Hval Hget. split; [|done].
  unfold auth.OAuthMiddleware. by rewrite Hctx, Hval, Hget.
Qed.

(** C10: when the stored record exists, the access token of the identity is
    the presented bearer token and the user and team are the validated ones;
    of the stored record only the bot token and the bot user id are used. *)
Theorem OAuthMiddleware_with_record (oauthMgr : M)
    (next : auth.Context.t → Request → Result + error)
    (ctx : auth.Context.t) (req : Request)
    (header : string) (tokenInfo : oauth.TokenInfo.t)
    (storedToken : oauth.TokenResponse.t) :
  auth.Context.authValue ctx = Some header →
  oauth.mgr_ValidateToken oauthMgr (GoString.TrimPrefix header "Bearer ")
    = inl tokenInfo →
  oauth.mgr_GetStoredToken oauthMgr (oauth.TokenInfo.UserID tokenInfo)
    = inl storedToken →
  auth.OAuthMiddleware oauthMgr next ctx req
    = next (auth.WithUserContext ctx
              (auth.UserContext.mk
                 (oauth.TokenInfo.UserID tokenInfo)
                 (oauth.TokenInfo.TeamID tokenInfo)
                 (GoString.TrimPrefix header "Bearer ")
                 (oauth.TokenResponse.BotToken storedToken)
                 (oauth.TokenResponse.BotUserID storedToken))) req.
Proof.
  intros Hctx Hval Hget.
  unfold auth.OAuthMiddleware. by rewrite Hctx, Hval, Hget.
Qed.

End middleware.

Lemma OAuthMiddleware_without_record_witness :
  auth.OAuthMiddleware freshManager echoIdentity
    (auth.Context.mk (Some "Bearer xoxp-1") None) ()
  = inl (Some (auth.UserContext.mk "U1" "T1" "xoxp-1" "" "")).
Proof.
  apply (OAuthMiddleware_without_record freshManager echoIdentity
           (auth.Context.mk (Some "Bearer xoxp-1") None) ()
           "Bearer xoxp-1" (oauth.TokenInfo.mk "U1" "T1")
           "token not found for user U1").
  - reflexivity.
  - reflexivity.
  - reflexivity.
Defined.

Lemma OAuthMiddleware_with_record_witness :
  auth.OAuthMiddleware staleManager echoIdentity
    (auth.Context.mk (Some "Bearer xoxp-1") None) ()
  = inl (Some (auth.UserContext.mk "U1" "T1" "xoxp-1" "xoxb-9" "B9")).
Proof.
  apply (OAuthMiddleware_with_record staleManager echoIdentity
           (auth.Context.mk (Some "Bearer xoxp-1") None) ()
           "Bearer xoxp-1" (oauth.TokenInfo.mk "U1" "T1")
           (oauth.TokenResponse.mk "xoxp-old" "xoxb-9" "U1" "T1" "B9" 0)).
  - reflexivity.
  - reflexivity.
  - reflexivity.
Defined.

(** ** Base64: decoding undoes encoding *)

Lemma string_ind3 (P : string → Prop) :
  P "" → (∀ a, P (String a "")) → (∀ a b, P (String a (String b ""))) →
  (∀ a b c s, P s → P (String a (String b (String c s)))) →
  ∀ s, P s.
Proof.
  intros H0 H1 H2 H3 s.
  assert (P s ∧ (∀ a, P (String a s)) ∧ (∀ a b, P (String a (String b s))))
    as [? _]; [|done].
  induction s as [|c s (IH0 & IH1 & IH2)]; [done|].
  split; [done|]. split; [done|]. intros a b. by apply H3.
Qed.

Lemma sextet_lt val k : (base64.sextet val k < 64)%N.
Proof. unfold base64.sextet. by apply N.mod_lt. Qed.

Lemma enc6_alphabet v :
  (v < 64)%N →
  base64.dec6 (base64.enc6 v) = Some v ∧ base64.isNewline (base64.enc6 v) = false.
Proof.
  intros Hv. destruct v as [|p]; [done|].
  do 6 (try destruct p as [p|p|]); try (split; reflexivity); lia.
Qed.

Lemma dec6_enc6_sextet val k :
  base64.dec6 (base64.enc6 (base64.sextet val k)) = Some (base64.sextet val k).
Proof. apply enc6_alphabet, sextet_lt. Qed.

Lemma isNewline_enc6_sextet val k :
  base64.isNewline (base64.enc6 (base64.sextet val k)) = false.
Proof. apply enc6_alphabet, sextet_lt. Qed.

Lemma val24_lt a b c : (base64.val24 a b c < 16777216)%N.
Proof.
  unfold base64.val24.
  pose proof (N_ascii_bounded a). pose proof (N_ascii_bounded b).
  pose proof (N_ascii_bounded c). lia.
Qed.

Lemma quantum_sextets val :
  (val < 16777216)%N →
  base64.quantum (base64.sextet val 18) (base64.sextet val 12)
    (base64.sextet val 6) (base64.sextet val 0) = val.
Proof.
  intros Hv. unfold base64.quantum, base64.sextet.
  change (2 ^ 18)%N with 262144%N. change (2 ^ 12)%N with 4096%N.
  change (2 ^ 6)%N with 64%N. change (2 ^ 0)%N with 1%N.
  div_mod_lia.
Qed.

Lemma quantum_sextets2 a b :
  base64.quantum (base64.sextet (base64.val24 a b zero) 18)
    (base64.sextet (base64.val24 a b zero) 12)
    (base64.sextet (base64.val24 a b zero) 6) 0
  = base64.val24 a b zero.
Proof.
  rewrite <- (quantum_sextets (base64.val24 a b zero)) at 4 by apply val24_lt.
  unfold base64.quantum. f_equal.
  unfold base64.sextet, base64.val24. change (N_of_ascii zero) with 0%N.
  change (2 ^ 0)%N with 1%N.
  div_mod_lia.
Qed.

Lemma quantum_sextets1 a :
  base64.quantum (base64.sextet (base64.val24 a zero zero) 18)
    (base64.sextet (base64.val24 a zero zero) 12) 0 0
  = base64.val24 a zero zero.
Proof.
  rewrite <- (quantum_sextets (base64.val24 a zero zero)) at 3 by apply val24_lt.
  unfold base64.quantum, base64.sextet, base64.val24.
  change (N_of_ascii zero) with 0%N.
  change (2 ^ 0)%N with 1%N. change (2 ^ 6)%N with 64%N.
  pose proof (N_ascii_bounded a).
  div_mod_lia.
Qed.

Lemma val24_bytes a b c :
  base64.byte (base64.val24 a b c / 65536) = a
  ∧ base64.byte (base64.val24 a b c / 256) = b
  ∧ base64.byte (base64.val24 a b c) = c.
Proof.
  unfold base64.byte, base64.val24.
  pose proof (N_ascii_bounded a). pose proof (N_ascii_bounded b).
  pose proof (N_ascii_bounded c).
  set (x := N_of_ascii a) in *. set (y := N_of_ascii b) in *.
  set (z := N_of_ascii c) in *.
  assert (((x * 65536 + y * 256 + z) / 65536) mod 256 = x)%N as ->
    by div_mod_lia.
  assert (((x * 65536 + y * 256 + z) / 256) mod 256 = y)%N as ->
    by div_mod_lia.
  assert ((x * 65536 + y * 256 + z) mod 256 = z)%N as ->
    by div_mod_lia.
  subst x y z. by rewrite !ascii_N_embedding.
Qed.

Lemma decodeQuanta_EncodeToString s :
  base64.decodeQuanta (base64.EncodeToString s) = Some s.
Proof.
  induction s as [|a|a b|a b c s IH] using string_ind3; [done|..].
  - change (base64.EncodeToString (String a "")) with
      (String (base64.enc6 (base64.sextet (base64.val24 a zero zero) 18))
        (String (base64.enc6 (base64.sextet (base64.val24 a zero zero) 12))
          (String base64.padChar (String base64.padChar "")))).
    cbn [base64.decodeQuanta]. rewrite !dec6_enc6_sextet.
    change (base64.dec6 base64.padChar) with (@None N). cbv iota beta.
    change (Ascii.eqb base64.padChar base64.padChar) with true.
    cbn [andb String.eqb]. cbv zeta. rewrite quantum_sextets1.
    by rewrite (proj1 (val24_bytes a zero zero)).
  - change (base64.EncodeToString (String a (String b ""))) with
      (String (base64.enc6 (base64.sextet (base64.val24 a b zero) 18))
        (String (base64.enc6 (base64.sextet (base64.val24 a b zero) 12))
          (String (base64.enc6 (base64.sextet (base64.val24 a b zero) 6))
            (String base64.padChar "")))).
    cbn [base64.decodeQuanta]. rewrite !dec6_enc6_sextet.
    change (base64.dec6 base64.padChar) with (@None N). cbv iota beta.
    change (Ascii.eqb base64.padChar base64.padChar) with true.
    cbn [andb String.eqb]. cbv zeta. rewrite quantum_sextets2.
    destruct (val24_bytes a b zero) as (-> & -> & _). done.
  - change (base64.EncodeToString (String a (String b (String c s)))) with
      (String (base64.enc6 (base64.sextet (base64.val24 a b c) 18))
        (String (base64.enc6 (base64.sextet (base64.val24 a b c) 12))
          (String (base64.enc6 (base64.sextet (base64.val24 a b c) 6))
            (String (base64.enc6 (base64.sextet (base64.val24 a b c) 0))
              (base64.EncodeToString s))))).
    cbn [base64.decodeQuanta]. rewrite !dec6_enc6_sextet. cbv iota beta zeta.
    rewrite IH, quantum_sextets by apply val24_lt.
    destruct (val24_bytes a b c) as (-> & -> & ->). done.
Qed.

Lemma dropNewlines_EncodeToString s :
  base64.dropNewlines (base64.EncodeToString s) = base64.EncodeToString s.
Proof.
  induction s as [|a|a b|a b c s IH] using string_ind3; [done|..];
    cbn [base64.EncodeToString base64.dropNewlines]; cbv zeta;
    rewrite ?isNewline_enc6_sextet;
    change (base64.isNewline base64.padChar) with false; cbv iota;
    cbn [base64.dropNewlines]; by rewrite ?IH.
Qed.

Lemma DecodeString_EncodeToString s :
  base64.DecodeString (base64.EncodeToString s) = Some s.
Proof.
  unfold base64.DecodeString.
  by rewrite dropNewlines_EncodeToString, decodeQuanta_EncodeToString.
Qed.

Lemma EncodeToString_empty s : base64.EncodeToString s = "" → s = "".
Proof. by destruct s as [|a [|b [|c s]]]. Qed.

Example base64_encode_C012 :
  base64.EncodeToString "C0123456789" = "QzAxMjM0NTY3ODk=".
Proof. reflexivity. Qed.

Example base64_decode_C012 :
  base64.DecodeString "QzAxMjM0NTY3ODk=" = Some "C0123456789".
Proof. reflexivity. Qed.

Example base64_decode_bad : base64.DecodeString "not base64!" = None.
Proof. reflexivity. Qed.

(** ** Slices and machine integers *)

Lemma wrap_int_id z : - 2 ^ 63 ≤ z < 2 ^ 63 → wrap_int z = z.
Proof. intros Hz. unfold wrap_int. rewrite Z.mod_small; lia. Qed.

Lemma wrap_int_le z : - 2 ^ 63 ≤ z → wrap_int z ≤ z.
Proof.
  intros Hz. unfold wrap_int.
  pose proof (Z.mod_le (z + 2 ^ 63) (2 ^ 64)). lia.
Qed.

Lemma slice_Some {A} (s : list A) lo hi :
  0 ≤ lo ≤ hi → hi ≤ Z.of_nat (length s) →
  slice s lo hi = Some (take (Z.to_nat (hi - lo)) (drop (Z.to_nat lo) s)).
Proof.
  intros Hlo Hhi. unfold slice.
  replace ((0 <=? lo) && (lo <=? hi) && (hi <=? Z.of_nat (length s))) with true by lia.
  do 2 f_equal. lia.
Qed.


Lemma index_Some {A} (s : list A) i :
  0 ≤ i < Z.of_nat (length s) → ∃ x, index s i = Some x ∧ s !! Z.to_nat i = Some x.
Proof.
  intros Hi. unfold index. replace (0 <=? i) with true by lia.
  destruct (lookup_lt_is_Some_2 s (Z.to_nat i)) as [x Hx]; [lia|]. eauto.
Qed.

(** ** The start index *)

Lemma findStart_range channels lastID i :
  0 ≤ i →
  handler.findStart channels lastID i = 0
  ∨ i ≤ handler.findStart channels lastID i < i + Z.of_nat (length channels).
Proof.
  revert i. induction channels as [|ch rest IH]; intros i Hi; simpl; [by left|].
  destruct (GoString.gt _ _); [right; lia|].
  destruct (IH (i + 1)) as [?|?]; [lia|by left|right; lia].
Qed.

Lemma findStart_bounds channels lastID :
  0 ≤ handler.findStart channels lastID 0 ≤ Z.of_nat (length channels)
  ∧ (channels ≠ [] → handler.findStart channels lastID 0 < Z.of_nat (length channels)).
Proof.
  destruct (findStart_range channels lastID 0) as [->|?]; [done| |].
  - split; [lia|]. destruct channels; [done|]. simpl. lia.
  - split; lia.
Qed.

(** No channel past [lastID]: the loop leaves [startIndex] at 0. *)
Lemma findStart_none channels lastID i :
  Forall (λ ch, GoString.gt (provider.Channel.ID ch) lastID = false) channels →
  handler.findStart channels lastID i = 0.
Proof.
  intros Hall. revert i.
  induction Hall as [|ch rest Hch _ IH]; intros i; simpl; [done|].
  by rewrite Hch.
Qed.

(** The loop stops at the first channel past [lastID]. *)
Lemma findStart_app before ch after lastID i :
  Forall (λ ch, GoString.gt (provider.Channel.ID ch) lastID = false) before →
  GoString.gt (provider.Channel.ID ch) lastID = true →
  handler.findStart (before ++ ch :: after)%list lastID i
  = i + Z.of_nat (length before).
Proof.
  intros Hbefore Hch. revert i.
  induction Hbefore as [|x before Hx _ IH]; intros i; simpl.
  - rewrite Hch. lia.
  - rewrite Hx, IH. lia.
Qed.

Section pagination.
Context `{GoRuntime}.

Lemma paginateChannels_steps channels cursor limit :
  handler.paginateChannels channels cursor limit
  = let sorted :=
      sort_Slice handler.byID channels in
    handler.pageFrom sorted (handler.startIndexOf sorted cursor) limit.
Proof. reflexivity. Qed.

Lemma startIndexOf_bounds sorted cursor :
  0 ≤ handler.startIndexOf sorted cursor ≤ Z.of_nat (length sorted)
  ∧ (sorted ≠ [] → handler.startIndexOf sorted cursor < Z.of_nat (length sorted)).
Proof.
  unfold handler.startIndexOf.
  destruct (negb (String.eqb cursor "")), (base64.DecodeString cursor);
    try apply findStart_bounds; (split; [lia|]); destruct sorted; try done;
    simpl; lia.
Qed.

(** A page cut with a positive limit that does not overflow. *)
Lemma pageFrom_positive sorted startIndex limit :
  0 ≤ startIndex ≤ Z.of_nat (length sorted) →
  0 < limit → startIndex + limit < 2 ^ 63 →
  handler.pageFrom sorted startIndex limit
  = Some (take (Z.to_nat limit) (drop (Z.to_nat startIndex) sorted),
          if startIndex + limit <? Z.of_nat (length sorted)
          then default ""
                 (base64.EncodeToString ∘ provider.Channel.ID
                    <$> sorted !! Z.to_nat (startIndex + limit - 1))
          else "").
Proof.
  intros Hstart Hlimit Hmax. unfold handler.pageFrom.
  rewrite wrap_int_id by lia. cbv zeta.
  destruct (startIndex + limit >? Z.of_nat (length sorted)) eqn:Hgt.
  - rewrite slice_Some by lia. simpl.
    replace (Z.of_nat (length sorted) <? Z.of_nat (length sorted)) with false by lia.
    replace (startIndex + limit <? Z.of_nat (length sorted)) with false by lia.
    do 2 f_equal.
    rewrite !take_ge; [done|rewrite length_drop; lia..].
  - rewrite slice_Some by lia. simpl.
    replace (Z.to_nat (startIndex + limit - startIndex)) with (Z.to_nat limit) by lia.
    destruct (startIndex + limit <? Z.of_nat (length sorted)) eqn:Hlt; [|done].
    destruct (index_Some sorted (startIndex + limit - 1)) as (x & -> & ->); [lia|].
    done.
Qed.


End pagination.

(** ** From the page to the rows of the result *)

Lemma cursorOf_blank (rows : list handler.Channel.t) :
  Forall (λ row, handler.Channel.Cursor row = "") rows →
  handler.cursorOf rows = "".
Proof.
  intros Hall. unfold handler.cursorOf.
  destruct (last rows) as [row|] eqn:Hlast; [|done]. simpl.
  apply last_Some_elem_of in Hlast.
  by apply (proj1 (Forall_forall _ _) Hall).
Qed.

Lemma cursorOf_setLastCursor (rows : list handler.Channel.t) nextcur :
  rows ≠ [] → handler.cursorOf (handler.setLastCursor rows nextcur) = nextcur.
Proof.
  intros Hne. unfold handler.cursorOf, handler.setLastCursor.
  rewrite last_lookup, length_alter.
  replace (pred (length rows)) with (length rows - 1)%nat by lia.
  rewrite list_lookup_alter_eq.
  destruct (lookup_lt_is_Some_2 rows (length rows - 1)%nat) as [row ->]; [|done].
  destruct rows; [done|]. simpl. lia.
Qed.

Lemma setLastCursor_IDs (rows : list handler.Channel.t) nextcur :
  handler.Channel.ID <$> handler.setLastCursor rows nextcur
  = handler.Channel.ID <$> rows.
Proof.
  unfold handler.setLastCursor.
  rewrite (list_fmap_alter _ _ id) by by apply Forall_true.
  by apply list_alter_id.
Qed.

Section rows.
Context `{GoRuntime}.

Lemma ChannelsHandler_None ch request :
  handler.listPage ch request = None → handler.channelsHandlerLegacy ch request = None.
Proof. intros Hp. unfold handler.channelsHandlerLegacy. by rewrite Hp. Qed.

(** In legacy mode with a ready provider the handler is the listing. *)
Lemma ChannelsHandler_legacy ch api ctx request err :
  handler.ChannelsHandler.oauthEnabled ch = false →
  provider.ApiProvider.IsReady (handler.ChannelsHandler.apiProvider ch) = (true, err) →
  handler.ChannelsHandler ch api ctx request
  = inl <$> handler.channelsHandlerLegacy ch request.
Proof. intros Hmode Hready. unfold handler.ChannelsHandler. by rewrite Hmode, Hready. Qed.

(** The rows of a result carry the ids of the page, in some order, and its
    next cursor in the last row. *)
Lemma ChannelsHandler_rows ch request page next :
  handler.listPage ch request = Some (page, next) →
  ∃ rows, handler.channelsHandlerLegacy ch request = Some rows
    ∧ handler.Channel.ID <$> rows ≡ₚ provider.Channel.ID <$> page
    ∧ handler.cursorOf rows = match page with [] => "" | _ => next end.
Proof.
  intros Hp. unfold handler.channelsHandlerLegacy. rewrite Hp. simpl.
  set (rows := if String.eqb _ "popularity" then _ else _).
  assert (rows ≡ₚ handler.toRow <$> page) as Hperm.
  { subst rows. destruct (String.eqb _ _); [apply sort_Slice_perm|done]. }
  assert (Forall (λ row, handler.Channel.Cursor row = "") rows) as Hblank.
  { rewrite Hperm. by apply Forall_fmap, Forall_true. }
  assert (handler.Channel.ID <$> rows ≡ₚ provider.Channel.ID <$> page) as HIDs.
  { rewrite Hperm, <- list_fmap_compose. done. }
  assert (rows = [] ↔ page = []) as Hnil.
  { split; intros Hn.
    - rewrite Hn in Hperm. symmetry in Hperm.
      apply Permutation_nil_r in Hperm. by apply fmap_nil_inv in Hperm.
    - rewrite Hn in Hperm. by apply Permutation_nil_r in Hperm. }
  clearbody rows. eexists. split; [done|].
  destruct ((0 <? length rows)%nat && negb (String.eqb next "")) eqn:Hset.
  - apply andb_prop in Hset as [Hlen _].
    assert (rows ≠ []) as Hne by (intros ->; simpl in Hlen; done).
    rewrite setLastCursor_IDs, cursorOf_setLastCursor by done.
    split; [done|]. destruct page; [|done]. by destruct Hne; apply Hnil.
  - split; [done|]. rewrite cursorOf_blank by done.
    destruct page as [|c page]; [done|].
    apply andb_false_iff in Hset as [Hlen|Hnext].
    + destruct rows; [by pose proof (proj1 Hnil eq_refl)|by simpl in Hlen].
    + apply negb_false_iff in Hnext. by apply String.eqb_eq in Hnext.
Qed.

End rows.

(** ** The listing: limit, cursor and display sort *)

Section listing.
Context `{GoRuntime}.

Lemma sorted_nil_iff (channels : list provider.Channel.t) :
  sort_Slice handler.byID channels = [] ↔ channels = [].
Proof.
  pose proof (sort_Slice_perm _ handler.byID channels) as Hp.
  split; intros Hn.
  - rewrite Hn in Hp. symmetry in Hp. by apply Permutation_nil_r in Hp.
  - subst channels. by apply Permutation_nil_r in Hp.
Qed.

Lemma effectiveLimit_cases n :
  handler.effectiveLimit n = if n =? 0 then 100 else Z.min n 999.
Proof.
  unfold handler.effectiveLimit.
  destruct (n =? 0) eqn:H0; [done|]. destruct (n >? 999) eqn:H9; lia.
Qed.

Lemma effectiveLimit_range n : 0 ≤ n → 0 < handler.effectiveLimit n ≤ 999.
Proof. intros Hn. rewrite effectiveLimit_cases. destruct (n =? 0) eqn:H0; lia. Qed.


(** An undecodable cursor leaves the start index at 0, like no cursor. *)
Lemma paginateChannels_undecodable channels cursor limit :
  base64.DecodeString cursor = None →
  handler.paginateChannels channels cursor limit
  = handler.paginateChannels channels "" limit.
Proof.
  intros Hdec. rewrite !paginateChannels_steps. cbv zeta.
  unfold handler.startIndexOf. rewrite Hdec. by destruct (negb _).
Qed.

(** C6: a cursor that does not decode gives the result of a call without
    cursor, page and next cursor alike, for every collection, category set
    and limit; and with a limit that is not negative there is a result. *)
Theorem undecodable_cursor_restarts (ch : handler.ChannelsHandler.t)
    (sort types : option string) (limit : option Z) (cursor : string) :
  base64.DecodeString cursor = None →
  handler.listPage ch (handler.CallToolRequest.mk sort types (Some cursor) limit)
  = handler.listPage ch (handler.CallToolRequest.mk sort types (Some "") limit)
  ∧ handler.channelsHandlerLegacy ch
      (handler.CallToolRequest.mk sort types (Some cursor) limit)
    = handler.channelsHandlerLegacy ch
        (handler.CallToolRequest.mk sort types (Some "") limit)
  ∧ (0 ≤ default 0 limit →
     is_Some (handler.channelsHandlerLegacy ch
                (handler.CallToolRequest.mk sort types (Some cursor) limit))).
Proof.
  intros Hdec.
  assert (handler.listPage ch (handler.CallToolRequest.mk sort types (Some cursor) limit)
          = handler.listPage ch (handler.CallToolRequest.mk sort types (Some "") limit))
    as Hlist by apply paginateChannels_undecodable, Hdec.
  split; [done|]. split.
  - unfold handler.channelsHandlerLegacy. by rewrite Hlist.
  - intros Hn. unfold handler.channelsHandlerLegacy. rewrite Hlist.
    unfold handler.listPage. simpl.
    rewrite paginateChannels_steps. cbv zeta.
    pose proof (effectiveLimit_range _ Hn).
    change (handler.startIndexOf _ "") with 0.
    rewrite pageFrom_positive by lia. done.
Qed.

(** In legacy mode the display sort changes neither the ids of the rows
    nor the next cursor. *)
Lemma channelsHandlerLegacy_display_sort (ch : handler.ChannelsHandler.t)
    (sortA sortB types cursor : option string) (limit : option Z) :
  match handler.channelsHandlerLegacy ch
          (handler.CallToolRequest.mk sortA types cursor limit),
        handler.channelsHandlerLegacy ch
          (handler.CallToolRequest.mk sortB types cursor limit) with
  | Some rowsA, Some rowsB =>
      handler.Channel.ID <$> rowsA ≡ₚ handler.Channel.ID <$> rowsB
      ∧ handler.cursorOf rowsA = handler.cursorOf rowsB
  | None, None => True
  | _, _ => False
  end.
Proof.
  set (requestA := handler.CallToolRequest.mk sortA types cursor limit).
  set (requestB := handler.CallToolRequest.mk sortB types cursor limit).
  assert (handler.listPage ch requestA = handler.listPage ch requestB) as Hlist by done.
  destruct (handler.listPage ch requestB) as [[page next]|] eqn:HB.
  - destruct (ChannelsHandler_rows ch requestA page next Hlist) as (rowsA & -> & HA & HcA).
    destruct (ChannelsHandler_rows ch requestB page next HB) as (rowsB & -> & HB' & HcB).
    split; [by rewrite HA, HB'|by rewrite HcA, HcB].
  - by rewrite (ChannelsHandler_None ch requestA Hlist),
               (ChannelsHandler_None ch requestB HB).
Qed.

(** The rows fetched in OAuth mode carry no cursor. *)
Lemma fetchChannels_blank api client limit channelTypes acc rows :
  Forall (λ row, handler.Channel.Cursor row = "") acc →
  handler.fetchChannels api client limit channelTypes acc = inl rows →
  Forall (λ row, handler.Channel.Cursor row = "") rows.
Proof.
  revert acc. induction channelTypes as [|chanType rest IH]; intros acc Hacc; simpl.
  - by intros [= <-].
  - destruct (api client _) as [[channels upstreamCursor]|err]; [|done].
    apply IH. apply Forall_app. split; [done|].
    by apply Forall_fmap, Forall_true.
Qed.

(** C7: the display sort changes neither the ids of the rows nor the next
    cursor, in either mode of the handler: two calls that differ in their
    [sort] argument only both panic, or both fail with the same error, or
    both return rows; these carry the same ids, and the cursor read off them
    is the same. *)
Theorem display_sort_keeps_page_and_cursor (ch : handler.ChannelsHandler.t)
    (api : slack.API) (ctx : auth.Context.t)
    (sortA sortB types cursor : option string) (limit : option Z) :
  match handler.ChannelsHandler ch api ctx
          (handler.CallToolRequest.mk sortA types cursor limit),
        handler.ChannelsHandler ch api ctx
          (handler.CallToolRequest.mk sortB types cursor limit) with
  | Some (inl rowsA), Some (inl rowsB) =>
      handler.Channel.ID <$> rowsA ≡ₚ handler.Channel.ID <$> rowsB
      ∧ handler.cursorOf rowsA = handler.cursorOf rowsB
  | Some (inr errA), Some (inr errB) => errA = errB
  | None, None => True
  | _, _ => False
  end.
Proof.
  unfold handler.ChannelsHandler.
  destruct (handler.ChannelsHandler.oauthEnabled ch).
  - unfold handler.channelsHandlerOAuth.
    destruct (handler.getSlackClient ch ctx) as [client|err]; [|done].
    cbn [handler.CallToolRequest.channel_types handler.CallToolRequest.limit
         handler.CallToolRequest.sort].
    destruct (handler.fetchChannels _ _ _ _ _) as [rows|err] eqn:Hfetch; [|done].
    apply fetchChannels_blank in Hfetch; [|constructor].
    assert (∀ sortType : string,
              (if String.eqb sortType "popularity"
               then sort_Slice
                      (λ a b, handler.Channel.MemberCount a >? handler.Channel.MemberCount b)
                      rows
               else rows) ≡ₚ rows) as Hperm
      by (intros sortType; destruct (String.eqb _ _); [apply sort_Slice_perm|done]).
    split; [by rewrite !Hperm|].
    rewrite !cursorOf_blank; [done|by rewrite Hperm..].
  - destruct (provider.ApiProvider.IsReady _) as [[] err]; [|done].
    pose proof (channelsHandlerLegacy_display_sort ch sortA sortB types cursor limit)
      as Hlegacy.
    destruct (handler.channelsHandlerLegacy ch
                (handler.CallToolRequest.mk sortA types cursor limit)),
             (handler.channelsHandlerLegacy ch
                (handler.CallToolRequest.mk sortB types cursor limit)); done.
Qed.

(** C9: a cursor that decodes to a value no channel id exceeds leaves the
    start index at 0, and the call returns what a call without cursor
    returns; for a non-empty filtered collection and a limit that is not
    negative, that is a page that is not empty: the first page. *)
Theorem cursor_past_the_end_restarts (ch : handler.ChannelsHandler.t)
    (sort types : option string) (limit : option Z) (cursor lastID : string) :
  let channels :=
    handler.filterChannelsByTypes (handler.allChannels ch)
      (handler.parseChannelTypes (handler.ChannelsHandler.validTypes ch)
         (default provider.PubChanType types)) in
  let sorted := sort_Slice handler.byID channels in
  channels ≠ [] →
  base64.DecodeString cursor = Some lastID →
  Forall (λ c, GoString.gt (provider.Channel.ID c) lastID = false) channels →
  handler.startIndexOf sorted cursor = 0
  ∧ handler.listPage ch (handler.CallToolRequest.mk sort types (Some cursor) limit)
    = handler.listPage ch (handler.CallToolRequest.mk sort types (Some "") limit)
  ∧ (0 ≤ default 0 limit →
     ∃ page next,
       handler.listPage ch (handler.CallToolRequest.mk sort types (Some cursor) limit)
       = Some (page, next)
       ∧ page ≠ []
       ∧ page = take (Z.to_nat (handler.effectiveLimit (default 0 limit))) sorted).
Proof.
  intros channels sorted Hne Hdec Hall.
  assert (Forall (λ c, GoString.gt (provider.Channel.ID c) lastID = false) sorted)
    as Hall' by (subst sorted; by rewrite sort_Slice_perm).
  assert (handler.startIndexOf sorted cursor = 0) as Hstart.
  { unfold handler.startIndexOf. rewrite Hdec.
    destruct (negb _); [by apply findStart_none|done]. }
  assert (∀ c, handler.listPage ch (handler.CallToolRequest.mk sort types c limit)
               = handler.pageFrom sorted (handler.startIndexOf sorted (default "" c))
                   (handler.effectiveLimit (default 0 limit))) as Hlist by done.
  split; [done|]. split.
  { rewrite !Hlist. simpl. by rewrite Hstart. }
  intros Hn.
  pose proof (effectiveLimit_range _ Hn) as Hrange.
  assert (sorted ≠ []) as Hsne by (subst sorted; by rewrite sorted_nil_iff).
  eexists _, _. split; [|split].
  - rewrite Hlist. simpl. rewrite Hstart.
    rewrite pageFrom_positive by lia. reflexivity.
  - simpl. destruct sorted; [done|].
    destruct (Z.to_nat (handler.effectiveLimit (default 0 limit))) eqn:Hz; [lia|done].
  - done.
Qed.

End listing.


Lemma undecodable_cursor_restarts_witness :
  handler.listPage oneChannel (handler.CallToolRequest.mk None None (Some "!") None)
  = handler.listPage oneChannel (handler.CallToolRequest.mk None None (Some "") None)
  ∧ handler.channelsHandlerLegacy oneChannel
      (handler.CallToolRequest.mk None None (Some "!") None)
    = handler.channelsHandlerLegacy oneChannel
        (handler.CallToolRequest.mk None None (Some "") None)
  ∧ (0 ≤ default 0 None →
     is_Some (handler.channelsHandlerLegacy oneChannel
                (handler.CallToolRequest.mk None None (Some "!") None))).
Proof.
  apply (undecodable_cursor_restarts oneChannel None None None "!").
  reflexivity.
Defined.

(** ** Filtering by one category *)

Lemma filterStep_app typeSet result ch :
  handler.filterStep typeSet result ch
  = (result ++ handler.filterStep typeSet [] ch)%list.
Proof.
  unfold handler.filterStep. cbv zeta.
  destruct_tests;
    simpl; rewrite <- ?(assoc_L (++)%list); simpl; by rewrite ?(right_id_L [] (++)%list).
Qed.

Lemma filterChannelsByTypes_bind channels types :
  handler.filterChannelsByTypes channels types
  = channels ≫= handler.filterStep (foldl (λ m t, <[t := true]> m) ∅ types) [].
Proof.
  unfold handler.filterChannelsByTypes. cbv zeta.
  generalize (foldl (λ (m : gmap string bool) t, <[t := true]> m) ∅ types).
  intros typeSet.
  assert (∀ acc, foldl (handler.filterStep typeSet) acc channels
                 = (acc ++ (channels ≫= handler.filterStep typeSet []))%list) as Hgen.
  { induction channels as [|ch channels IH]; intros acc; simpl.
    - by rewrite (right_id_L [] (++)%list).
    - rewrite IH, (filterStep_app typeSet acc ch). by rewrite <- (assoc_L (++)%list). }
  by rewrite Hgen.
Qed.





(** ** The order in which the map of channels is visited does not matter *)

Lemma filterStep_elem typeSet ch x :
  x ∈ handler.filterStep typeSet [] ch → x = ch.
Proof.
  unfold handler.filterStep. cbv zeta.
  destruct_tests;
    simpl; intros Hx;
    repeat (apply elem_of_cons in Hx as [->|Hx]; [done|]);
    by apply elem_of_nil in Hx.
Qed.

Lemma filterChannelsByTypes_elem channels types x :
  x ∈ handler.filterChannelsByTypes channels types → x ∈ channels.
Proof.
  rewrite filterChannelsByTypes_bind, list_elem_of_bind.
  intros (ch & Hx & Hch). by rewrite (filterStep_elem _ _ _ Hx).
Qed.

Lemma filterChannelsByTypes_Permutation channels channels' types :
  channels ≡ₚ channels' →
  handler.filterChannelsByTypes channels types
  ≡ₚ handler.filterChannelsByTypes channels' types.
Proof. intros Hp. rewrite !filterChannelsByTypes_bind. by rewrite Hp. Qed.

Lemma NoDup_fmap_elem_inj {A B} (f : A → B) (l : list A) x y :
  NoDup (f <$> l) → x ∈ l → y ∈ l → f x = f y → x = y.
Proof.
  induction l as [|z l IH]; [by intros _ ?%elem_of_nil|].
  rewrite fmap_cons, NoDup_cons. intros [Hz Hnd] Hx Hy Hxy.
  apply elem_of_cons in Hx as [->|Hx]; apply elem_of_cons in Hy as [->|Hy].
  - done.
  - destruct Hz. rewrite Hxy. by apply list_elem_of_fmap_2.
  - destruct Hz. rewrite <- Hxy. by apply list_elem_of_fmap_2.
  - by apply IH.
Qed.

(** Two slices sorted by id with the same elements are equal, when equal
    ids mean equal channels. *)
Lemma sorted_by_ID_unique (l1 l2 : list provider.Channel.t) :
  StronglySorted (λ x y, handler.byID y x = false) l1 →
  StronglySorted (λ x y, handler.byID y x = false) l2 →
  l1 ≡ₚ l2 →
  (∀ x y, x ∈ l1 → y ∈ l1 →
     provider.Channel.ID x = provider.Channel.ID y → x = y) →
  l1 = l2.
Proof.
  intros Hs1. revert l2.
  induction Hs1 as [|x l1 Hs1 IH Hx]; intros l2 Hs2 Hp Hinj.
  - by apply Permutation_nil_l in Hp.
  - destruct Hs2 as [|y l2 Hs2 Hy]; [by apply Permutation_nil_r in Hp|].
    assert (x = y) as <-.
    { assert (y ∈ x :: l1) as Hyin by (rewrite Hp; left).
      assert (x ∈ y :: l2) as Hxin by (rewrite <- Hp; left).
      apply elem_of_cons in Hyin as [->|Hyin]; [done|].
      apply elem_of_cons in Hxin as [->|Hxin]; [done|].
      apply Hinj; [left|by right|].
      apply string_ltb_total.
      - exact (proj1 (Forall_forall _ _) Hy x Hxin).
      - exact (proj1 (Forall_forall _ _) Hx y Hyin). }
    f_equal. apply IH; [done|by apply (inj (cons x))|].
    intros a b Ha Hb. apply Hinj; by right.
Qed.

Section range_order.
Context `{GoRuntime}.

(** Two visits of the same map of channels, in whatever orders, give the
    same page and the same rows. *)
Lemma listPage_range_order (ch ch' : handler.ChannelsHandler.t) request :
  NoDup (provider.Channel.ID <$> handler.allChannels ch) →
  handler.allChannels ch' ≡ₚ handler.allChannels ch →
  handler.ChannelsHandler.validTypes ch' = handler.ChannelsHandler.validTypes ch →
  handler.listPage ch' request = handler.listPage ch request
  ∧ handler.channelsHandlerLegacy ch' request
    = handler.channelsHandlerLegacy ch request.
Proof.
  intros Hnd Hp Hv.
  assert (handler.listPage ch' request = handler.listPage ch request) as Hlist.
  { unfold handler.listPage. rewrite Hv. cbv zeta.
    set (types := handler.parseChannelTypes _ _).
    rewrite !paginateChannels_steps. cbv zeta.
    assert (sort_Slice handler.byID
              (handler.filterChannelsByTypes (handler.allChannels ch') types)
            = sort_Slice handler.byID
                (handler.filterChannelsByTypes (handler.allChannels ch) types)) as ->;
      [|done].
    apply sorted_by_ID_unique.
    - apply sort_Slice_sorted, StrictWeak_by_ID.
    - apply sort_Slice_sorted, StrictWeak_by_ID.
    - rewrite !sort_Slice_perm. by apply filterChannelsByTypes_Permutation.
    - intros x y Hx Hy.
      rewrite sort_Slice_perm in Hx, Hy.
      apply filterChannelsByTypes_elem in Hx, Hy. rewrite Hp in Hx, Hy.
      by apply (NoDup_fmap_elem_inj _ (handler.allChannels ch)). }
  split; [done|]. unfold handler.channelsHandlerLegacy. by rewrite Hlist.
Qed.

End range_order.

(** ** Resuming after a page *)


(** A slice sorted by id whose ids are distinct is strictly increasing. *)
Lemma sorted_distinct_strict (sorted : list provider.Channel.t) :
  StronglySorted (λ x y, handler.byID y x = false) sorted →
  NoDup (provider.Channel.ID <$> sorted) →
  StronglySorted (λ x y, handler.byID x y = true) sorted.
Proof.
  induction 1 as [|x l Hl IH Hx]; intros Hnd; [constructor|].
  rewrite fmap_cons in Hnd. apply NoDup_cons in Hnd as [Hx' Hnd].
  constructor; [by apply IH|].
  apply Forall_forall. intros y Hy.
  pose proof (proj1 (Forall_forall _ _) Hx y Hy) as Hyx. simpl in Hyx.
  unfold handler.byID, GoString.lt in *.
  destruct (String.ltb (provider.Channel.ID x) (provider.Channel.ID y)) eqn:Hxy; [done|].
  destruct Hx'. rewrite (string_ltb_total _ _ Hxy Hyx).
  by apply list_elem_of_fmap_2.
Qed.


Section two_pages.
Context `{GoRuntime}.


End two_pages.

Section two_calls.
Context `{GoRuntime}.


End two_calls.


Lemma cursor_past_the_end_restarts_witness :
  let channels :=
    handler.filterChannelsByTypes (handler.allChannels cache250)
      (handler.parseChannelTypes (handler.ChannelsHandler.validTypes cache250)
         (default provider.PubChanType (Some "private_channel"))) in
  let sorted := sort_Slice handler.byID channels in
  handler.startIndexOf sorted "QzI0Ng==" = 0
  ∧ handler.listPage cache250
      (handler.CallToolRequest.mk None (Some "private_channel") (Some "QzI0Ng==") (Some 30))
    = handler.listPage cache250
        (handler.CallToolRequest.mk None (Some "private_channel") (Some "") (Some 30))
  ∧ (0 ≤ default 0 (Some 30) →
     ∃ page next,
       handler.listPage cache250
         (handler.CallToolRequest.mk None (Some "private_channel") (Some "QzI0Ng==") (Some 30))
       = Some (page, next)
       ∧ page ≠ []
       ∧ page = take (Z.to_nat (handler.effectiveLimit (default 0 (Some 30)))) sorted).
Proof.
  apply (cursor_past_the_end_restarts cache250 None (Some "private_channel")
           (Some 30) "QzI0Ng==" "C246").
  - vm_compute. discriminate.
  - reflexivity.
  - apply (bool_decide_unpack _). vm_compute. reflexivity.
Defined.

(** ** The authorization URL *)

Lemma QueryUnescape_QueryEscape s : url.QueryUnescape (url.QueryEscape s) = Some s.
Proof.
  induction s as [|c s IH]; [done|].
  destruct c as [[] [] [] [] [] [] [] []];
    cbn [url.QueryEscape]; vm_compute Ascii.eqb; cbv iota;
    try (vm_compute url.shouldEscape; cbv iota);
    try (vm_compute url.hexDigit);
    cbn [url.QueryUnescape]; try (vm_compute url.unhex; cbv iota);
    rewrite IH; reflexivity.
Qed.

(** C8: the authorization URL is a function of the client id, the redirect
    URI and the state alone (the client secret does not enter it): the fixed
    endpoint followed by the five parameters in the order of their keys: the
    escaped client id, the escaped redirect URI, the bot scopes, the escaped
    state and the user scopes.  The two scope parameters are constants, and
    unescaping and splitting them gives back the two hard-coded lists;
    unescaping an escaped value gives back the value. *)
Theorem GetAuthURL_shape (clientID clientSecret redirectURI state : string) :
  oauth.GetAuthURL (oauth.NewManager clientID clientSecret redirectURI) state
  = "https://slack.com/oauth/v2/authorize?" +:+
    ("client_id=" +:+ url.QueryEscape clientID) +:+ "&" +:+
    ("redirect_uri=" +:+ url.QueryEscape redirectURI) +:+ "&" +:+
    ("scope=" +:+ escapedBotScopes) +:+ "&" +:+
    ("state=" +:+ url.QueryEscape state) +:+ "&" +:+
    "user_scope=" +:+ escapedUserScopes
  ∧ ((λ s, GoString.SplitByte s ",") <$> url.QueryUnescape escapedBotScopes)
    = Some oauth.botScopes
  ∧ ((λ s, GoString.SplitByte s ",") <$> url.QueryUnescape escapedUserScopes)
    = Some oauth.userScopes
  ∧ url.QueryUnescape (url.QueryEscape clientID) = Some clientID
  ∧ url.QueryUnescape (url.QueryEscape redirectURI) = Some redirectURI
  ∧ url.QueryUnescape (url.QueryEscape state) = Some state.
Proof.
  split; [|split; [by vm_compute|split; [by vm_compute|]]].
  - unfold oauth.GetAuthURL, url.Encode, oauth.authParams, oauth.NewManager.
    change (url.sortedKeys _) with
      ["client_id"; "redirect_uri"; "scope"; "state"; "user_scope"].
    cbn [mbind list_bind]. rewrite !(right_id_L [] (++)%list).
    repeat first [ rewrite lookup_insert_eq
                 | rewrite lookup_insert_ne by done
                 | rewrite lookup_singleton_eq ].
    cbn [app fmap list_fmap default from_option id GoString.Join
         oauth.Manager.clientID oauth.Manager.redirectURI].
    change (url.QueryEscape (GoString.Join oauth.botScopes ","))
      with escapedBotScopes.
    change (url.QueryEscape (GoString.Join oauth.userScopes ","))
      with escapedUserScopes.
    reflexivity.
  - by rewrite !QueryUnescape_QueryEscape.
Qed.

Example GetAuthURL_example :
  oauth.GetAuthURL (oauth.NewManager "12.34" "secret" "https://example.org/cb") "a b="
  = "https://slack.com/oauth/v2/authorize?client_id=12.34&redirect_uri=https%3A%2F%2Fexample.org%2Fcb&scope=channels%3Ahistory%2Cchannels%3Aread%2Cgroups%3Ahistory%2Cgroups%3Aread%2Cim%3Ahistory%2Cim%3Aread%2Cim%3Awrite%2Cmpim%3Ahistory%2Cmpim%3Aread%2Cmpim%3Awrite%2Cusers%3Aread%2Cchat%3Awrite&state=a+b%3D&user_scope=channels%3Ahistory%2Cchannels%3Aread%2Cgroups%3Ahistory%2Cgroups%3Aread%2Cim%3Ahistory%2Cim%3Aread%2Cim%3Awrite%2Cmpim%3Ahistory%2Cmpim%3Aread%2Cmpim%3Awrite%2Cusers%3Aread%2Cchat%3Awrite%2Csearch%3Aread".
Proof. reflexivity. Qed.

(** ** The definitions at work *)

(** A callback with an expired state is answered with 400, and the state is
    still registered afterwards. *)
Example HandleCallback_expired_state :
  let h := server.OAuthHandler.mk freshManager {["tok" := 5]} in
  let r := server.HandleCallback h "code" "tok" 10 in
  server.Response.status r.1 = 400
  ∧ server.Response.body r.1 = server.Text "Invalid or expired state"
  ∧ server.OAuthHandler.states r.2 !! "tok" = Some 5.
Proof. by vm_compute. Qed.

(** A callback with a live state consumes it and stores the token of the
    user the upstream names. *)
Example HandleCallback_live_state :
  let h := server.OAuthHandler.mk freshManager {["tok" := 5]} in
  let r := server.HandleCallback h "code" "tok" 3 in
  server.Response.status r.1 = 200
  ∧ server.OAuthHandler.states r.2 !! "tok" = None
  ∧ oauth.GetStoredToken
      (oauth.LiveManager.storage (server.OAuthHandler.manager r.2)) "U1"
    = inl (oauth.TokenResponse.mk "xoxp-1" "xoxb-9" "U1" "T1" "B9"
             (365 * 24 * time.Hour)).
Proof. by vm_compute. Qed.

(** Three private channels by popularity: the cursor is the id of [C005],
    the last in the order of the ids, and sits in the last row shown. *)
Example channels_by_popularity :
  summary <$> handler.channelsHandlerLegacy cache250
    (handler.CallToolRequest.mk None (Some " private_channel , bogus") None (Some 3))
  = Some [("C001", 7, ""); ("C005", 4, ""); ("C000", 0, "QzAwNQ==")].
Proof. by vm_compute. Qed.

(** The next page, unsorted, and a negative limit. *)
Example channels_next_page :
  summary <$> handler.channelsHandlerLegacy cache250
    (handler.CallToolRequest.mk (Some "id") (Some "private_channel")
       (Some "QzAwNQ==") (Some 3))
  = Some [("C006", 11, ""); ("C010", 8, ""); ("C011", 15, "QzAxMQ==")]
  ∧ handler.channelsHandlerLegacy cache250
      (handler.CallToolRequest.mk None None None (Some (-3))) = None.
Proof. by vm_compute. Qed.

(** In OAuth mode the limit goes upstream as it is, and there is no cursor. *)
Example channels_oauth_mode :
  handler.ChannelsHandler handler.NewChannelsHandlerWithOAuth
    (λ token params,
       if String.eqb token "xoxp-1"
       then inl ([slack.Channel.mk "C1" "general" "" ""
                    (slack.GetConversationsParameters.Limit params)], "")
       else inr "invalid_auth")
    (auth.Context.mk None (Some (auth.UserContext.mk "U1" "T1" "xoxp-1" "" "")))
    (handler.CallToolRequest.mk None (Some "im") (Some "QzAwNQ==") (Some 5000))
  = Some (inl [handler.Channel.mk "C1" "#general" "" "" 5000 ""]).
Proof. by vm_compute. Qed.

(** * Further properties of the code *)

(** ** The in-memory token storage *)

Lemma Get_Store_lookup (s : oauth.MemoryStorage.t) userID userID' token :
  oauth.MemoryStorage.Get (oauth.MemoryStorage.Store s userID token).1 userID'
  = if decide (userID = userID') then inl token
    else oauth.MemoryStorage.Get s userID'.
Proof.
  unfold oauth.MemoryStorage.Get, oauth.MemoryStorage.Store. simpl.
  rewrite lookup_insert. by case_decide.
Qed.

(** X1: [Get] after [Store] returns the token just stored for that user and
    what was there before for every other user; a later [Store] for the same
    user replaces the record; [Store] never fails. *)
Theorem MemoryStorage_Get_Store (s : oauth.MemoryStorage.t)
    (userID userID' : string) (token : oauth.TokenResponse.t) :
  (oauth.MemoryStorage.Store s userID token).2 = None
  ∧ oauth.MemoryStorage.Get (oauth.MemoryStorage.Store s userID token).1 userID'
    = if decide (userID = userID') then inl token
      else oauth.MemoryStorage.Get s userID'.
Proof.
  split; [done|]. apply Get_Store_lookup.
Qed.

(** [Get] fails exactly for the users without a record. *)
Lemma MemoryStorage_Get_error (s : oauth.MemoryStorage.t) userID :
  oauth.MemoryStorage.Get s userID = inr ("token not found for user " +:+ userID)
  ↔ oauth.MemoryStorage.tokens s !! userID = None.
Proof.
  unfold oauth.MemoryStorage.Get.
  destruct (oauth.MemoryStorage.tokens s !! userID); naive_solver.
Qed.

(** ** The code exchange against the in-memory storage *)

(** X2: a successful exchange returns the record built from the upstream's
    answer (the user token as access token, the top-level token as bot
    token, an expiry one year after the clock), stores it under the user id
    the upstream named, and leaves the records of all other users alone. *)
Theorem exchange_stores_the_record (m : oauth.Manager.t) (up : oauth.Upstream)
    (now : time.Time) (storage : oauth.MemoryStorage.t) (code state : string)
    (result : oauth.AccessResult.t) :
  oauth.oauth_v2_access up (oauth.accessForm m code) = oauth.Decoded result →
  oauth.AccessResult.OK result = true →
  let token := oauth.TokenResponse.mk
    (oauth.AccessResult.AuthedUser_AccessToken result)
    (oauth.AccessResult.AccessToken result)
    (oauth.AccessResult.AuthedUser_ID result)
    (oauth.AccessResult.Team_ID result)
    (oauth.AccessResult.BotUserID result)
    (now + 31536000 * time.Second) in
  let r := oauth.HandleCallback m up now storage code state in
  r.1 = inl token
  ∧ oauth.GetStoredToken r.2 (oauth.AccessResult.AuthedUser_ID result) = inl token
  ∧ ∀ userID, userID ≠ oauth.AccessResult.AuthedUser_ID result →
      oauth.GetStoredToken r.2 userID = oauth.GetStoredToken storage userID.
Proof.
  intros Hup Hok token r.
  assert (r = (inl token,
               (oauth.MemoryStorage.Store storage
                  (oauth.AccessResult.AuthedUser_ID result) token).1)) as ->.
  { subst r. unfold oauth.HandleCallback. cbv zeta. by rewrite Hup, Hok. }
  split; [done|]. split.
  - change (oauth.MemoryStorage.Get
              (oauth.MemoryStorage.Store storage
                 (oauth.AccessResult.AuthedUser_ID result) token).1
              (oauth.AccessResult.AuthedUser_ID result) = inl token).
    rewrite Get_Store_lookup. by case_decide.
  - intros userID Hne.
    change (oauth.MemoryStorage.Get
              (oauth.MemoryStorage.Store storage
                 (oauth.AccessResult.AuthedUser_ID result) token).1 userID
            = oauth.MemoryStorage.Get storage userID).
    rewrite Get_Store_lookup. by case_decide.
Qed.

Lemma exchange_stores_the_record_witness :
  let token := oauth.TokenResponse.mk "xoxp-1" "xoxb-9" "U1" "T1" "B9"
                 (7 + 31536000 * time.Second) in
  let r := oauth.HandleCallback (oauth.NewManager "id" "secret" "https://example.org/cb")
             oneUserUpstream 7 oauth.MemoryStorage.NewMemoryStorage "code" "state" in
  r.1 = inl token
  ∧ oauth.GetStoredToken r.2 "U1" = inl token
  ∧ ∀ userID, userID ≠ "U1" →
      oauth.GetStoredToken r.2 userID
      = oauth.GetStoredToken oauth.MemoryStorage.NewMemoryStorage userID.
Proof.
  apply (exchange_stores_the_record
           (oauth.NewManager "id" "secret" "https://example.org/cb")
           oneUserUpstream 7 oauth.MemoryStorage.NewMemoryStorage "code" "state"
           (oauth.AccessResult.mk true "" "xoxb-9" "U1" "xoxp-1" "B9" "T1" "team")).
  - reflexivity.
  - reflexivity.
Defined.

(** X3: an exchange that returns an error has written nothing, whatever
    went wrong (transport, decoding, or the upstream's refusal); and with
    this storage an error is returned only when the upstream did not answer
    [ok: true]. *)
Theorem exchange_error_writes_nothing (m : oauth.Manager.t) (up : oauth.Upstream)
    (now : time.Time) (storage : oauth.MemoryStorage.t) (code state : string)
    (err : error) :
  (oauth.HandleCallback m up now storage code state).1 = inr err →
  (oauth.HandleCallback m up now storage code state).2 = storage
  ∧ match oauth.oauth_v2_access up (oauth.accessForm m code) with
    | oauth.TransportError e => err = "failed to exchange code: " +:+ e
    | oauth.DecodeError e => err = "failed to decode response: " +:+ e
    | oauth.Decoded result =>
        oauth.AccessResult.OK result = false
        ∧ err = "slack error: " +:+ oauth.AccessResult.Error result
    end.
Proof.
  unfold oauth.HandleCallback. cbv zeta.
  destruct (oauth.oauth_v2_access up _) as [e|e|result]; simpl.
  - by intros [= <-].
  - by intros [= <-].
  - destruct (oauth.AccessResult.OK result); simpl; [done|]. by intros [= <-].
Qed.

Lemma exchange_error_writes_nothing_witness :
  (oauth.HandleCallback (oauth.NewManager "id" "secret" "https://example.org/cb")
     rejectingUpstream 0 staleStorage "code" "state").2 = staleStorage
  ∧ match oauth.oauth_v2_access rejectingUpstream
            (oauth.accessForm (oauth.NewManager "id" "secret" "https://example.org/cb")
               "code") with
    | oauth.TransportError e => "slack error: invalid_code" = "failed to exchange code: " +:+ e
    | oauth.DecodeError e => "slack error: invalid_code" = "failed to decode response: " +:+ e
    | oauth.Decoded result =>
        oauth.AccessResult.OK result = false
        ∧ "slack error: invalid_code" = "slack error: " +:+ oauth.AccessResult.Error result
    end.
Proof.
  apply (exchange_error_writes_nothing
           (oauth.NewManager "id" "secret" "https://example.org/cb")
           rejectingUpstream 0 staleStorage "code" "state" "slack error: invalid_code").
  reflexivity.
Defined.

(** ** The OAuth endpoints *)

(** The sweep keeps exactly the entries that have not expired. *)
Lemma sweep_lookup (states : gmap string time.Time) (now : time.Time)
    (state : string) (expiry : time.Time) :
  server.sweep states now !! state = Some expiry
  ↔ states !! state = Some expiry ∧ now ≤ expiry.
Proof.
  unfold server.sweep. rewrite map_lookup_filter_Some. simpl.
  unfold time.After. split; intros [? ?]; (split; [done|lia]).
Qed.

Section endpoints.
Context {M : Type} `{oauth.OAuthManager M}.

Lemma HandleCallback_missing (h : server.OAuthHandler.t M) code state now :
  code = "" ∨ state = "" →
  server.HandleCallback h code state now
  = (server.httpError "Missing code or state" server.StatusBadRequest, h).
Proof.
  intros Hm. unfold server.HandleCallback.
  by destruct Hm as [-> | ->]; [|rewrite orb_true_r].
Qed.

Lemma HandleCallback_refused (h : server.OAuthHandler.t M) code state now :
  code ≠ "" → state ≠ "" →
  (server.verifyState (server.OAuthHandler.states h) state now).1 = false →
  server.HandleCallback h code state now
  = (server.httpError "Invalid or expired state" server.StatusBadRequest, h).
Proof.
  intros Hc Hs Hv. unfold server.HandleCallback.
  apply String.eqb_neq in Hc as ->. apply String.eqb_neq in Hs as ->. simpl.
  by destruct (server.verifyState _ _ _) as [[] ?].
Qed.

Lemma HandleCallback_accepted (h : server.OAuthHandler.t M) code state now :
  code ≠ "" → state ≠ "" →
  (server.verifyState (server.OAuthHandler.states h) state now).1 = true →
  let r := server.HandleCallback h code state now in
  (server.Response.status r.1 = server.StatusOK
   ∨ server.Response.status r.1 = server.StatusInternalServerError)
  ∧ server.OAuthHandler.states r.2 = delete state (server.OAuthHandler.states h)
  ∧ server.OAuthHandler.manager r.2
    = (oauth.mgr_HandleCallback (server.OAuthHandler.manager h) code state).2.
Proof.
  intros Hc Hs Hv. unfold server.HandleCallback.
  apply String.eqb_neq in Hc as ->. apply String.eqb_neq in Hs as ->. simpl.
  unfold server.verifyState in *.
  destruct (server.OAuthHandler.states h !! state) as [expiry|]; [|done].
  destruct (time.After now expiry); [done|].
  destruct (oauth.mgr_HandleCallback _ _ _) as [[token|err] mgr]; simpl; auto.
Qed.


(** X5: the same state presented later than ten minutes after its issue is
    refused with 400, the handler is left as it was, and the next sweep
    removes the state. *)
Theorem authorize_then_late_callback (h : server.OAuthHandler.t M)
    (state code : string) (now now' : time.Time) :
  code ≠ "" → state ≠ "" → now + 600 * time.Second < now' →
  let issued := (server.HandleAuthorize h state now).2 in
  server.HandleCallback issued code state now'
  = (server.httpError "Invalid or expired state" 400, issued)
  ∧ server.OAuthHandler.states (server.cleanupStates issued now') !! state = None.
Proof.
  intros Hc Hs Hlt issued.
  assert (server.OAuthHandler.states issued !! state
          = Some (time.Add now (10 * time.Minute)))
    as Hreg by (unfold issued, server.HandleAuthorize; simpl; apply lookup_insert_eq).
  clearbody issued. split.
  - apply HandleCallback_refused; [done..|].
    unfold server.verifyState. rewrite Hreg. unfold time.After.
    replace (_ <? now') with true; [done|].
    unfold time.Add, time.Minute, time.Second in *. lia.
  - unfold server.cleanupStates. simpl.
    destruct (server.sweep _ now' !! state) as [expiry|] eqn:Hsw; [|done].
    apply sweep_lookup in Hsw as [Hsw Hle].
    assert (Some expiry = Some (time.Add now (10 * time.Minute))) as [= ->]
      by (etrans; [symmetry; exact Hsw|exact Hreg]).
    unfold time.Add, time.Minute, time.Second in *. lia.
Qed.

(** X6: a callback answered with 400 has had no effect: the registry and
    the manager are as before (the manager is not called), and the reason is
    a missing parameter or a state that is unknown or expired. *)
Theorem refused_callback_changes_nothing (h : server.OAuthHandler.t M)
    (code state : string) (now : time.Time) :
  server.Response.status (server.HandleCallback h code state now).1 = 400 →
  (server.HandleCallback h code state now).2 = h
  ∧ (code = "" ∨ state = ""
     ∨ (server.verifyState (server.OAuthHandler.states h) state now).1 = false).
Proof.
  intros Hst.
  destruct (decide (code = "")) as [->|Hc].
  { split; [|by left]. by rewrite HandleCallback_missing by by left. }
  destruct (decide (state = "")) as [->|Hs].
  { split; [|by right; left]. by rewrite HandleCallback_missing by by right. }
  destruct (server.verifyState (server.OAuthHandler.states h) state now).1 eqn:Hv.
  - destruct (HandleCallback_accepted h code state now Hc Hs Hv) as ([Hr|Hr] & _);
      rewrite Hr in Hst; discriminate.
  - split; [|by right; right]. by rewrite HandleCallback_refused.
Qed.

(** X7: a callback changes the registration of no state but its own. *)
Theorem callback_keeps_other_states (h : server.OAuthHandler.t M)
    (code state other : string) (now : time.Time) :
  other ≠ state →
  server.OAuthHandler.states (server.HandleCallback h code state now).2 !! other
  = server.OAuthHandler.states h !! other.
Proof.
  intros Hne.
  destruct (decide (code = "")) as [->|Hc].
  { by rewrite HandleCallback_missing by by left. }
  destruct (decide (state = "")) as [->|Hs].
  { by rewrite HandleCallback_missing by by right. }
  destruct (server.verifyState (server.OAuthHandler.states h) state now).1 eqn:Hv.
  - destruct (HandleCallback_accepted h code state now Hc Hs Hv) as (_ & -> & _).
    by apply lookup_delete_ne.
  - by rewrite HandleCallback_refused.
Qed.

End endpoints.

(** X8: the sweep cannot be observed through callbacks: at any instant from
    the sweep on, a state is accepted after the sweep exactly when it would
    have been accepted without it. *)
Theorem sweep_keeps_acceptance (states : gmap string time.Time)
    (state : string) (now now' : time.Time) :
  now ≤ now' →
  (server.verifyState (server.sweep states now) state now').1
  = (server.verifyState states state now').1.
Proof.
  intros Hle. unfold server.verifyState.
  destruct (server.sweep states now !! state) as [expiry|] eqn:Hsw.
  - apply sweep_lookup in Hsw as [-> _]. by destruct (time.After now' expiry).
  - destruct (states !! state) as [expiry|] eqn:Hst; [|done].
    destruct (time.After now' expiry) eqn:Ha; [done|].
    assert (server.sweep states now !! state = Some expiry) as Hin.
    { apply sweep_lookup. split; [done|]. unfold time.After in Ha. lia. }
    by rewrite Hsw in Hin.
Qed.


Lemma authorize_then_late_callback_witness :
  let issued := (server.HandleAuthorize (server.NewOAuthHandler freshManager) "st" 0).2 in
  server.HandleCallback issued "c" "st" (601 * time.Second)
  = (server.httpError "Invalid or expired state" 400, issued)
  ∧ server.OAuthHandler.states (server.cleanupStates issued (601 * time.Second)) !! "st"
    = None.
Proof.
  apply (authorize_then_late_callback (server.NewOAuthHandler freshManager) "st" "c"
           0 (601 * time.Second)).
  - discriminate.
  - discriminate.
  - reflexivity.
Defined.

Lemma refused_callback_changes_nothing_witness :
  let h := server.OAuthHandler.mk freshManager {["tok" := 5]} in
  (server.HandleCallback h "c" "tok" 10).2 = h
  ∧ ("c" = "" ∨ "tok" = ""
     ∨ (server.verifyState (server.OAuthHandler.states h) "tok" 10).1 = false).
Proof.
  apply (refused_callback_changes_nothing
           (server.OAuthHandler.mk freshManager {["tok" := 5]}) "c" "tok" 10).
  reflexivity.
Defined.

Lemma callback_keeps_other_states_witness :
  let h := server.OAuthHandler.mk freshManager (<["other" := 9]> {["tok" := 5]}) in
  server.OAuthHandler.states (server.HandleCallback h "c" "tok" 3).2 !! "other"
  = server.OAuthHandler.states h !! "other".
Proof.
  apply (callback_keeps_other_states
           (server.OAuthHandler.mk freshManager (<["other" := 9]> {["tok" := 5]}))
           "c" "tok" "other" 3).
  discriminate.
Defined.

Lemma sweep_keeps_acceptance_witness :
  (server.verifyState (server.sweep (<["old" := 2]> {["tok" := 50]}) 10) "tok" 20).1
  = (server.verifyState (<["old" := 2]> {["tok" := 50]}) "tok" 20).1.
Proof.
  apply (sweep_keeps_acceptance (<["old" := 2]> {["tok" := 50]}) "tok" 10 20).
  lia.
Defined.

(** ** The callback against the manager and the in-memory storage *)

Ltac map_lookups :=
  repeat first [ rewrite lookup_insert_eq
               | rewrite lookup_insert_ne by done
               | rewrite lookup_singleton_eq
               | rewrite lookup_singleton_ne by done ].

Lemma exchange_result_is_stored (m : oauth.Manager.t) (up : oauth.Upstream)
    now (storage : oauth.MemoryStorage.t) code state token :
  (oauth.HandleCallback m up now storage code state).1 = inl token →
  oauth.MemoryStorage.Get (oauth.HandleCallback m up now storage code state).2
    (oauth.TokenResponse.UserID token) = inl token.
Proof.
  unfold oauth.HandleCallback. cbv zeta.
  destruct (oauth.oauth_v2_access up _) as [e|e|result]; [done..|].
  destruct (oauth.AccessResult.OK result); [|done].
  cbn [negb oauth.Store oauth.MemoryStorage_TokenStorage oauth.MemoryStorage.Store fst].
  intros [= <-]. cbn [snd oauth.TokenResponse.UserID].
  unfold oauth.MemoryStorage.Get. cbn [oauth.MemoryStorage.tokens].
  by rewrite lookup_insert_eq.
Qed.

(** X9: a callback answered with 200 returns, as [access_token], [user_id]
    and [team_id], the fields of a record that is now stored under that user
    id; the bot token is in the answer exactly when the record has one; and
    the answer forbids caching. *)
Theorem successful_callback_answer
    (h : server.OAuthHandler.t (oauth.LiveManager.t oauth.MemoryStorage.t))
    (code state : string) (now : time.Time) :
  server.Response.status (server.HandleCallback h code state now).1 = 200 →
  ∃ token fields,
    server.Response.body (server.HandleCallback h code state now).1
    = server.JSON fields
    ∧ fields !! "access_token" = Some (oauth.TokenResponse.AccessToken token)
    ∧ fields !! "user_id" = Some (oauth.TokenResponse.UserID token)
    ∧ fields !! "team_id" = Some (oauth.TokenResponse.TeamID token)
    ∧ fields !! "bot_token"
      = (if String.eqb (oauth.TokenResponse.BotToken token) "" then None
         else Some (oauth.TokenResponse.BotToken token))
    ∧ oauth.GetStoredToken
        (oauth.LiveManager.storage
           (server.OAuthHandler.manager (server.HandleCallback h code state now).2))
        (oauth.TokenResponse.UserID token) = inl token
    ∧ server.Response.headers (server.HandleCallback h code state now).1
        !! "Cache-Control" = Some "no-store, no-cache, must-revalidate, private"
    ∧ server.Response.headers (server.HandleCallback h code state now).1
        !! "Pragma" = Some "no-cache".
Proof.
  unfold server.HandleCallback.
  destruct (String.eqb code "" || String.eqb state ""); [done|].
  destruct (server.verifyState _ _ _) as [[] states]; [|done].
  cbn [oauth.mgr_HandleCallback oauth.Manager_OAuthManager].
  pose proof (exchange_result_is_stored
                (oauth.LiveManager.config (server.OAuthHandler.manager h))
                (oauth.LiveManager.upstream (server.OAuthHandler.manager h))
                (oauth.LiveManager.clock (server.OAuthHandler.manager h))
                (oauth.LiveManager.storage (server.OAuthHandler.manager h))
                code state) as Hstored.
  destruct (oauth.HandleCallback _ _ _ _ _ _) as [[token|err] storage']; [|done].
  intros _. specialize (Hstored token eq_refl). simpl in Hstored.
  exists token. eexists. split; [reflexivity|].
  cbn [server.Response.headers server.OAuthHandler.manager oauth.LiveManager.storage
       snd fst].
  destruct (String.eqb (oauth.TokenResponse.BotToken token) ""); cbn [negb];
    map_lookups; rewrite ?lookup_empty; done.
Qed.

Lemma successful_callback_answer_witness :
  let h := server.OAuthHandler.mk freshManager {["tok" := 5]} in
  ∃ token fields,
    server.Response.body (server.HandleCallback h "code" "tok" 3).1
    = server.JSON fields
    ∧ fields !! "access_token" = Some (oauth.TokenResponse.AccessToken token)
    ∧ fields !! "user_id" = Some (oauth.TokenResponse.UserID token)
    ∧ fields !! "team_id" = Some (oauth.TokenResponse.TeamID token)
    ∧ fields !! "bot_token"
      = (if String.eqb (oauth.TokenResponse.BotToken token) "" then None
         else Some (oauth.TokenResponse.BotToken token))
    ∧ oauth.GetStoredToken
        (oauth.LiveManager.storage
           (server.OAuthHandler.manager (server.HandleCallback h "code" "tok" 3).2))
        (oauth.TokenResponse.UserID token) = inl token
    ∧ server.Response.headers (server.HandleCallback h "code" "tok" 3).1
        !! "Cache-Control" = Some "no-store, no-cache, must-revalidate, private"
    ∧ server.Response.headers (server.HandleCallback h "code" "tok" 3).1
        !! "Pragma" = Some "no-cache".
Proof.
  apply (successful_callback_answer
           (server.OAuthHandler.mk freshManager {["tok" := 5]}) "code" "tok" 3).
  reflexivity.
Defined.

(** ** The middleware as a gate *)

Lemma CutPrefix_app pre s : GoString.CutPrefix (pre +:+ s) pre = Some s.
Proof.
  induction pre as [|p pre IH]; simpl; [by destruct s|].
  by rewrite Ascii.eqb_refl.
Qed.

Lemma TrimPrefix_app pre s : GoString.TrimPrefix (pre +:+ s) pre = s.
Proof. unfold GoString.TrimPrefix. by rewrite CutPrefix_app. Qed.

Section gate.
Context {M : Type} `{oauth.OAuthManager M}.
Context {Request Result : Type}.

(** X10: the wrapped handler is reached only past both gates, and then with
    an identity whose user and team are the validated ones and whose access
    token is the presented one; without a token, or with a token the manager
    does not validate, the answer is an error that does not depend on the
    wrapped handler. *)
Theorem middleware_gates (oauthMgr : M)
    (next : auth.Context.t → Request → Result + error)
    (ctx : auth.Context.t) (req : Request) :
  (auth.Context.authValue ctx = None
   ∧ auth.OAuthMiddleware oauthMgr next ctx req = inr "missing authentication token")
  ∨ (∃ header err,
       auth.Context.authValue ctx = Some header
       ∧ oauth.mgr_ValidateToken oauthMgr (GoString.TrimPrefix header "Bearer ")
         = inr err
       ∧ auth.OAuthMiddleware oauthMgr next ctx req
         = inr ("invalid authentication token: " +:+ err))
  ∨ (∃ header tokenInfo userCtx,
       auth.Context.authValue ctx = Some header
       ∧ oauth.mgr_ValidateToken oauthMgr (GoString.TrimPrefix header "Bearer ")
         = inl tokenInfo
       ∧ auth.UserContext.UserID userCtx = oauth.TokenInfo.UserID tokenInfo
       ∧ auth.UserContext.TeamID userCtx = oauth.TokenInfo.TeamID tokenInfo
       ∧ auth.UserContext.AccessToken userCtx = GoString.TrimPrefix header "Bearer "
       ∧ auth.OAuthMiddleware oauthMgr next ctx req
         = next (auth.WithUserContext ctx userCtx) req).
Proof.
  unfold auth.OAuthMiddleware.
  destruct (auth.Context.authValue ctx) as [header|]; [|by left].
  right.
  destruct (oauth.mgr_ValidateToken oauthMgr _) as [tokenInfo|err] eqn:Hval.
  - right. eexists header, tokenInfo, (auth.UserContext.mk _ _ _ _ _).
    cbn [auth.UserContext.UserID auth.UserContext.TeamID auth.UserContext.AccessToken].
    split; [reflexivity|]. split; [exact Hval|].
    split; [reflexivity|]. split; [reflexivity|]. split; reflexivity.
  - left. by exists header, err.
Qed.

End gate.

Lemma fetchChannels_ext (api api' : slack.API) client limit channelTypes acc :
  (∀ params, api client params = api' client params) →
  handler.fetchChannels api client limit channelTypes acc
  = handler.fetchChannels api' client limit channelTypes acc.
Proof.
  intros Hext. revert acc.
  induction channelTypes as [|chanType rest IH]; intros acc; simpl; [done|].
  rewrite Hext. destruct (api' client _) as [[channels upstreamCursor]|err]; [|done].
  apply IH.
Qed.

Section isolation.
Context `{GoRuntime}.
Context {M : Type} `{oauth.OAuthManager M}.

(** X11: behind the middleware, the channel handler talks to the upstream
    with the token the request presented and with no other: two upstreams
    that answer alike for that token give the same result. *)
Theorem handler_uses_the_presented_token (oauthMgr : M)
    (ch : handler.ChannelsHandler.t) (api api' : slack.API)
    (ctx : auth.Context.t) (request : handler.CallToolRequest.t)
    (header : string) :
  auth.Context.authValue ctx = Some header →
  (∀ params, api (GoString.TrimPrefix header "Bearer ") params
             = api' (GoString.TrimPrefix header "Bearer ") params) →
  auth.OAuthMiddleware oauthMgr
    (λ ctx request, inl (handler.ChannelsHandler ch api ctx request)) ctx request
  = auth.OAuthMiddleware oauthMgr
      (λ ctx request, inl (handler.ChannelsHandler ch api' ctx request)) ctx request.
Proof.
  intros Hctx Hext. unfold auth.OAuthMiddleware. rewrite Hctx.
  destruct (oauth.mgr_ValidateToken oauthMgr _) as [tokenInfo|err]; [|done].
  f_equal. unfold handler.ChannelsHandler.
  destruct (handler.ChannelsHandler.oauthEnabled ch) eqn:Hmode; [|done].
  f_equal. unfold handler.channelsHandlerOAuth, handler.getSlackClient.
  rewrite Hmode. cbn [negb auth.FromContext auth.WithUserContext
                      auth.Context.userContext auth.UserContext.AccessToken].
  by rewrite (fetchChannels_ext api api').
Qed.

End isolation.

(** X12: after a successful exchange, a request that presents the access
    token of the returned record (and that the upstream attributes to the
    same user) is given an identity with the bot token and the bot user id
    of that exchange. *)
Theorem exchange_then_request {Request Result : Type}
    (mgr : oauth.LiveManager.t oauth.MemoryStorage.t)
    (next : auth.Context.t → Request → Result + error)
    (ctx : auth.Context.t) (req : Request)
    (code state teamID : string) (token : oauth.TokenResponse.t) :
  (oauth.mgr_HandleCallback mgr code state).1 = inl token →
  oauth.auth_test (oauth.LiveManager.upstream mgr) (oauth.TokenResponse.AccessToken token)
    = oauth.Decoded
        (oauth.AuthTestResult.mk true "" (oauth.TokenResponse.UserID token) teamID) →
  auth.Context.authValue ctx
    = Some ("Bearer " +:+ oauth.TokenResponse.AccessToken token) →
  auth.OAuthMiddleware (oauth.mgr_HandleCallback mgr code state).2 next ctx req
  = next (auth.WithUserContext ctx
            (auth.UserContext.mk (oauth.TokenResponse.UserID token) teamID
               (oauth.TokenResponse.AccessToken token)
               (oauth.TokenResponse.BotToken token)
               (oauth.TokenResponse.BotUserID token))) req.
Proof.
  cbn [oauth.mgr_HandleCallback oauth.Manager_OAuthManager].
  pose proof (exchange_result_is_stored (oauth.LiveManager.config mgr)
                (oauth.LiveManager.upstream mgr) (oauth.LiveManager.clock mgr)
                (oauth.LiveManager.storage mgr) code state token) as Hstored.
  destruct (oauth.HandleCallback _ _ _ _ _ _) as [r storage'].
  cbn [fst snd] in *. intros Hr Htest Hctx. specialize (Hstored Hr).
  unfold auth.OAuthMiddleware. rewrite Hctx, TrimPrefix_app.
  cbn [oauth.mgr_ValidateToken oauth.mgr_GetStoredToken oauth.Manager_OAuthManager
       oauth.LiveManager.upstream oauth.LiveManager.storage].
  unfold oauth.ValidateToken. rewrite Htest.
  cbn [negb oauth.AuthTestResult.OK oauth.AuthTestResult.UserID
       oauth.AuthTestResult.TeamID oauth.TokenInfo.UserID oauth.TokenInfo.TeamID].
  unfold oauth.GetStoredToken.
  cbn [oauth.Get oauth.MemoryStorage_TokenStorage]. by rewrite Hstored.
Qed.

Lemma handler_uses_the_presented_token_witness :
  auth.OAuthMiddleware freshManager
    (λ ctx request,
       inl (handler.ChannelsHandler handler.NewChannelsHandlerWithOAuth
              generalOnly ctx request))
    (auth.Context.mk (Some "Bearer xoxp-1") None)
    (handler.CallToolRequest.mk None None None None)
  = auth.OAuthMiddleware freshManager
      (λ ctx request,
         inl (handler.ChannelsHandler handler.NewChannelsHandlerWithOAuth
                generalForOne ctx request))
      (auth.Context.mk (Some "Bearer xoxp-1") None)
      (handler.CallToolRequest.mk None None None None).
Proof.
  apply (handler_uses_the_presented_token freshManager
           handler.NewChannelsHandlerWithOAuth generalOnly generalForOne
           (auth.Context.mk (Some "Bearer xoxp-1") None)
           (handler.CallToolRequest.mk None None None None) "Bearer xoxp-1").
  - reflexivity.
  - reflexivity.
Defined.

Lemma exchange_then_request_witness :
  auth.OAuthMiddleware (oauth.mgr_HandleCallback freshManager "code" "state").2
    echoIdentity (auth.Context.mk (Some "Bearer xoxp-1") None) ()
  = echoIdentity
      (auth.WithUserContext (auth.Context.mk (Some "Bearer xoxp-1") None)
         (auth.UserContext.mk "U1" "T1" "xoxp-1" "xoxb-9" "B9")) ().
Proof.
  apply (exchange_then_request freshManager echoIdentity
           (auth.Context.mk (Some "Bearer xoxp-1") None) () "code" "state" "T1"
           (oauth.TokenResponse.mk "xoxp-1" "xoxb-9" "U1" "T1" "B9"
              (31536000 * time.Second))).
  - reflexivity.
  - reflexivity.
  - reflexivity.
Defined.

(** ** Filtering and the channel types of a request *)

Lemma typeSet_lookup (types : list string) (m : gmap string bool) k :
  mapBool (foldl (λ m t, <[t := true]> m) m types) k = true
  ↔ k ∈ types ∨ mapBool m k = true.
Proof.
  revert m. induction types as [|t types IH]; intros m; simpl.
  - rewrite elem_of_nil. tauto.
  - rewrite IH, elem_of_cons. unfold mapBool at 1. rewrite lookup_insert.
    case_decide; simpl; intuition congruence.
Qed.

Lemma typeSet_requested (types : list string) k :
  mapBool (foldl (λ m t, <[t := true]> m) ∅ types) k = true ↔ k ∈ types.
Proof.
  rewrite typeSet_lookup. unfold mapBool. rewrite lookup_empty. simpl. intuition congruence.
Qed.

(** X13: a channel is in the result of the filter exactly when it is in the
    cache and one of the requested types fits it: public (not private, not a
    direct or group conversation), private (private, not a direct or group
    conversation), [im] or [mpim].  Types the filter does not know select
    nothing. *)
Theorem filterChannelsByTypes_spec (channels : list provider.Channel.t)
    (types : list string) (ch : provider.Channel.t) :
  ch ∈ handler.filterChannelsByTypes channels types
  ↔ ch ∈ channels
    ∧ ( ("public_channel" ∈ types
         ∧ provider.Channel.IsPrivate ch = false
         ∧ provider.Channel.IsIM ch = false ∧ provider.Channel.IsMpIM ch = false)
      ∨ ("private_channel" ∈ types
         ∧ provider.Channel.IsPrivate ch = true
         ∧ provider.Channel.IsIM ch = false ∧ provider.Channel.IsMpIM ch = false)
      ∨ ("im" ∈ types ∧ provider.Channel.IsIM ch = true)
      ∨ ("mpim" ∈ types ∧ provider.Channel.IsMpIM ch = true) ).
Proof.
  rewrite filterChannelsByTypes_bind, list_elem_of_bind.
  rewrite <- !typeSet_requested.
  set (typeSet := foldl _ ∅ types).
  assert (∀ c, ch ∈ handler.filterStep typeSet [] c ↔
    ch = c ∧
    ( (mapBool typeSet "public_channel" = true
         ∧ provider.Channel.IsPrivate c = false
         ∧ provider.Channel.IsIM c = false ∧ provider.Channel.IsMpIM c = false)
      ∨ (mapBool typeSet "private_channel" = true
         ∧ provider.Channel.IsPrivate c = true
         ∧ provider.Channel.IsIM c = false ∧ provider.Channel.IsMpIM c = false)
      ∨ (mapBool typeSet "im" = true ∧ provider.Channel.IsIM c = true)
      ∨ (mapBool typeSet "mpim" = true ∧ provider.Channel.IsMpIM c = true) )) as Hstep.
  { intros c. unfold handler.filterStep. cbv zeta.
    destruct (mapBool typeSet "public_channel"), (mapBool typeSet "private_channel"),
      (mapBool typeSet "im"), (mapBool typeSet "mpim"),
      (provider.Channel.IsPrivate c), (provider.Channel.IsIM c),
      (provider.Channel.IsMpIM c); simpl;
      rewrite ?elem_of_cons, ?elem_of_nil; intuition congruence. }
  split.
  - intros (c & Hin & Hc). apply Hstep in Hin as [-> Hm]. by split.
  - intros [Hc Hm]. exists ch. split; [|done]. apply Hstep. by split.
Qed.

(** X14: unless a channel of the cache is flagged both as a direct and as a
    group conversation, no channel is selected twice, whatever the types
    requested: the result is a sub-list of the cache, and distinct ids stay
    distinct. *)
Theorem filterChannelsByTypes_no_repeat (channels : list provider.Channel.t)
    (types : list string) :
  Forall (λ ch, provider.Channel.IsIM ch && provider.Channel.IsMpIM ch = false)
    channels →
  handler.filterChannelsByTypes channels types `sublist_of` channels
  ∧ (NoDup (provider.Channel.ID <$> channels) →
     NoDup (provider.Channel.ID <$> handler.filterChannelsByTypes channels types)).
Proof.
  intros Hflags.
  assert (handler.filterChannelsByTypes channels types `sublist_of` channels) as Hsub.
  { rewrite filterChannelsByTypes_bind.
    set (typeSet := foldl _ ∅ types).
    induction Hflags as [|ch channels Hch _ IH]; [done|]. simpl.
    change (ch :: channels) with ([ch] ++ channels)%list.
    apply sublist_app; [|done].
    unfold handler.filterStep. cbv zeta.
    destruct (mapBool typeSet "public_channel"), (mapBool typeSet "private_channel"),
      (mapBool typeSet "im"), (mapBool typeSet "mpim"),
      (provider.Channel.IsPrivate ch), (provider.Channel.IsIM ch),
      (provider.Channel.IsMpIM ch); simpl in *;
      try done; try apply sublist_nil_l. }
  split; [done|]. intros Hnd.
  eapply sublist_NoDup; [exact Hnd|]. by apply fmap_sublist.
Qed.

Lemma filterChannelsByTypes_no_repeat_witness :
  handler.filterChannelsByTypes (handler.allChannels cache250)
    ["im"; "private_channel"; "mpim"; "public_channel"]
    `sublist_of` handler.allChannels cache250
  ∧ (NoDup (provider.Channel.ID <$> handler.allChannels cache250) →
     NoDup (provider.Channel.ID <$>
              handler.filterChannelsByTypes (handler.allChannels cache250)
                ["im"; "private_channel"; "mpim"; "public_channel"])).
Proof.
  apply (filterChannelsByTypes_no_repeat (handler.allChannels cache250)
           ["im"; "private_channel"; "mpim"; "public_channel"]).
  apply (bool_decide_unpack _). vm_compute. reflexivity.
Defined.

Section channel_types.
Context `{GoRuntime}.

Lemma validChannelTypes_valid (validTypes : gmap string bool) types :
  Forall (λ t, mapBool validTypes t = true)
    (handler.validChannelTypes validTypes types).
Proof.
  unfold handler.validChannelTypes.
  generalize (GoString.SplitByte types ",").
  assert (∀ pieces acc,
            Forall (λ t, mapBool validTypes t = true) acc →
            Forall (λ t, mapBool validTypes t = true)
              (foldl (λ channelTypes t,
                 let t := strings_TrimSpace t in
                 if mapBool validTypes t then (channelTypes ++ [t])%list
                 else channelTypes) acc pieces)) as Hgen.
  { induction pieces as [|p pieces IH]; intros acc Hacc; simpl; [done|].
    apply IH. destruct (mapBool validTypes (strings_TrimSpace p)) eqn:Hp; [|done].
    apply Forall_app. split; [done|]. by constructor. }
  intros pieces. by apply Hgen.
Qed.

(** X15: the channel types the legacy mode filters by are never none:
    either all of them are valid types of the handler, or none of the
    requested ones was and they are the default pair, public and private. *)
Theorem parseChannelTypes_valid_or_default (validTypes : gmap string bool)
    (types : string) :
  handler.parseChannelTypes validTypes types ≠ []
  ∧ ( Forall (λ t, mapBool validTypes t = true)
        (handler.parseChannelTypes validTypes types)
      ∨ (handler.validChannelTypes validTypes types = []
         ∧ handler.parseChannelTypes validTypes types
           = ["public_channel"; "private_channel"]) ).
Proof.
  unfold handler.parseChannelTypes. cbv zeta.
  pose proof (validChannelTypes_valid validTypes types) as Hvalid.
  destruct (handler.validChannelTypes validTypes types) as [|t ts]; simpl.
  - split; [done|]. by right.
  - split; [done|]. by left.
Qed.

End channel_types.

(** ** Pages and cursors in general *)

(** In a strictly increasing slice, the cursor made of the id of a channel
    that is not the last, and whose id is not empty, resumes right after
    that channel. *)
Lemma startIndexOf_after (sorted : list provider.Channel.t) (j : nat) x :
  StronglySorted (λ a b, handler.byID a b = true) sorted →
  sorted !! j = Some x → (S j < length sorted)%nat →
  provider.Channel.ID x ≠ "" →
  handler.startIndexOf sorted (base64.EncodeToString (provider.Channel.ID x))
  = Z.of_nat (S j).
Proof.
  intros Hs Hx Hj Hne.
  destruct (lookup_lt_is_Some_2 sorted (S j) Hj) as [y Hy].
  assert (sorted = (take j sorted ++ x :: y :: drop (S (S j)) sorted)%list) as Hcut.
  { rewrite <- (drop_S sorted y (S j) Hy). by rewrite (take_drop_middle sorted j x Hx). }
  assert (length (take j sorted) = j) as Hlen by (rewrite length_take; lia).
  revert Hcut Hlen.
  generalize (take j sorted) (drop (S (S j)) sorted). intros before after -> Hlen.
  apply StronglySorted_app in Hs as (Hbx & _ & Hxa).
  apply StronglySorted_cons in Hxa as [Hxa _].
  apply Forall_cons in Hxa as [Hxy _].
  assert (base64.EncodeToString (provider.Channel.ID x) ≠ "") as Hcur
    by (intros He; by apply EncodeToString_empty in He).
  unfold handler.startIndexOf.
  apply String.eqb_neq in Hcur as ->. simpl.
  rewrite DecodeString_EncodeToString.
  change (before ++ x :: y :: after)%list with (before ++ [x] ++ y :: after)%list.
  rewrite (assoc_L (++)%list).
  rewrite findStart_app.
  - rewrite length_app. simpl. lia.
  - apply Forall_app. split.
    + apply Forall_forall. intros b Hb. unfold GoString.gt.
      apply string_ltb_asym. by apply (Hbx b x); [|left].
    + constructor; [|constructor]. apply string_ltb_irrefl.
  - exact Hxy.
Qed.

Section pages.
Context `{GoRuntime}.

(** With a positive limit that does not overflow, [paginateChannels] cuts
    [limit] channels from the start index on. *)
Lemma paginateChannels_cut channels cursor limit :
  let sorted := sort_Slice handler.byID channels in
  let start := handler.startIndexOf sorted cursor in
  0 < limit → Z.of_nat (length channels) + limit < 2 ^ 63 →
  0 ≤ start ≤ Z.of_nat (length sorted)
  ∧ (channels ≠ [] → start < Z.of_nat (length sorted))
  ∧ handler.paginateChannels channels cursor limit
    = Some (take (Z.to_nat limit) (drop (Z.to_nat start) sorted),
            if start + limit <? Z.of_nat (length sorted)
            then default ""
                   (base64.EncodeToString ∘ provider.Channel.ID
                      <$> sorted !! Z.to_nat (start + limit - 1))
            else "").
Proof.
  intros sorted start Hlimit Hmax.
  assert (length sorted = length channels) as Hlen
    by (subst sorted; apply Permutation_length, sort_Slice_perm).
  destruct (startIndexOf_bounds sorted cursor) as [Hstart Hlt].
  fold start in Hstart, Hlt.
  split; [done|]. split.
  { intros Hne. apply Hlt. subst sorted. by rewrite sorted_nil_iff. }
  rewrite paginateChannels_steps. cbv zeta. fold sorted. fold start.
  apply pageFrom_positive; lia.
Qed.

(** X16: with a positive limit, whatever the cursor, [paginateChannels]
    returns a page; it is a run of consecutive channels of the slice sorted
    by id, so it is in ascending order of the ids and holds only channels it
    was given; it has at most [limit] channels, and at least one unless
    there is no channel at all. *)
Theorem paginateChannels_page (channels : list provider.Channel.t)
    (cursor : string) (limit : Z) :
  0 < limit → Z.of_nat (length channels) + limit < 2 ^ 63 →
  ∃ paged next,
    handler.paginateChannels channels cursor limit = Some (paged, next)
    ∧ (∃ before rest,
         sort_Slice handler.byID channels = (before ++ paged ++ rest)%list)
    ∧ StronglySorted (λ a b, handler.byID b a = false) paged
    ∧ (∀ c, c ∈ paged → c ∈ channels)
    ∧ Z.of_nat (length paged) ≤ limit
    ∧ (channels ≠ [] → paged ≠ []).
Proof.
  intros Hlimit Hmax.
  destruct (paginateChannels_cut channels cursor limit Hlimit Hmax)
    as (Hstart & Hlt & Hcut).
  set (sorted := sort_Slice handler.byID channels) in *.
  set (start := handler.startIndexOf sorted cursor) in *.
  eexists _, _. split; [exact Hcut|].
  split.
  { exists (take (Z.to_nat start) sorted),
           (drop (Z.to_nat limit) (drop (Z.to_nat start) sorted)).
    by rewrite !take_drop. }
  split.
  { pose proof (sort_Slice_sorted _ handler.byID channels StrictWeak_by_ID) as Hs.
    fold sorted in Hs.
    rewrite <- (take_drop (Z.to_nat start) sorted) in Hs.
    apply StronglySorted_app in Hs as (_ & _ & Hs).
    rewrite <- (take_drop (Z.to_nat limit) (drop (Z.to_nat start) sorted)) in Hs.
    by apply StronglySorted_app in Hs as (_ & Hs & _). }
  split.
  { intros c Hc. apply subseteq_take, subseteq_drop in Hc.
    subst sorted. by rewrite sort_Slice_perm in Hc. }
  split.
  { rewrite length_take. lia. }
  intros Hne Hnil. specialize (Hlt Hne).
  apply (f_equal length) in Hnil. rewrite length_take, length_drop in Hnil.
  simpl in Hnil. lia.
Qed.

(** X17: a page that comes with a cursor is full, it is not the whole of
    the channels, and its cursor decodes to the id of its last channel (so a
    page shorter than the limit never carries a cursor). *)
Theorem paginateChannels_next_cursor (channels : list provider.Channel.t)
    (cursor : string) (limit : Z) (paged : list provider.Channel.t)
    (next : string) :
  0 < limit → Z.of_nat (length channels) + limit < 2 ^ 63 →
  handler.paginateChannels channels cursor limit = Some (paged, next) →
  next ≠ "" →
  Z.of_nat (length paged) = limit
  ∧ (length paged < length channels)%nat
  ∧ ∃ x, last paged = Some x
         ∧ base64.DecodeString next = Some (provider.Channel.ID x).
Proof.
  intros Hlimit Hmax Hp Hnext.
  destruct (paginateChannels_cut channels cursor limit Hlimit Hmax)
    as (Hstart & _ & Hcut).
  set (sorted := sort_Slice handler.byID channels) in *.
  set (start := handler.startIndexOf sorted cursor) in *.
  assert (length sorted = length channels) as Hlen
    by (subst sorted; apply Permutation_length, sort_Slice_perm).
  rewrite Hcut in Hp. injection Hp as <- <-.
  destruct (start + limit <? Z.of_nat (length sorted)) eqn:Hlt; [|done].
  apply Z.ltb_lt in Hlt.
  destruct (lookup_lt_is_Some_2 sorted (Z.to_nat (start + limit - 1))) as [x Hx];
    [lia|].
  rewrite Hx. simpl.
  split; [rewrite length_take, length_drop; lia|].
  split; [rewrite length_take, length_drop; lia|].
  exists x. split; [|apply DecodeString_EncodeToString].
  rewrite last_lookup, length_take, length_drop.
  rewrite lookup_take_lt by lia. rewrite lookup_drop, <- Hx. f_equal. lia.
Qed.

(** X18: when the ids are distinct, the cursor a page comes with resumes
    right where that page stopped: the call with that cursor, with whatever
    positive limit, returns the channels that follow the page in the order
    of the ids, and there is at least one. *)
Theorem next_cursor_resumes (channels : list provider.Channel.t)
    (cursor : string) (limit limit' : Z) (paged : list provider.Channel.t)
    (next : string) :
  NoDup (provider.Channel.ID <$> channels) →
  0 < limit → Z.of_nat (length channels) + limit < 2 ^ 63 →
  0 < limit' → Z.of_nat (length channels) + limit' < 2 ^ 63 →
  handler.paginateChannels channels cursor limit = Some (paged, next) →
  next ≠ "" →
  ∃ before rest next',
    sort_Slice handler.byID channels = (before ++ paged ++ rest)%list
    ∧ rest ≠ []
    ∧ handler.paginateChannels channels next limit'
      = Some (take (Z.to_nat limit') rest, next').
Proof.
  intros Hnd Hlimit Hmax Hlimit' Hmax' Hp Hnext.
  destruct (paginateChannels_cut channels cursor limit Hlimit Hmax)
    as (Hstart & _ & Hcut).
  destruct (paginateChannels_cut channels next limit' Hlimit' Hmax')
    as (_ & _ & Hcut').
  set (sorted := sort_Slice handler.byID channels) in *.
  set (start := handler.startIndexOf sorted cursor) in *.
  assert (sorted ≡ₚ channels) as Hperm by apply sort_Slice_perm.
  assert (length sorted = length channels) as Hlen by by rewrite Hperm.
  assert (StronglySorted (λ a b, handler.byID a b = true) sorted) as Hs.
  { apply sorted_distinct_strict; [|by rewrite Hperm].
    apply sort_Slice_sorted, StrictWeak_by_ID. }
  rewrite Hcut in Hp. injection Hp as <- <-.
  destruct (start + limit <? Z.of_nat (length sorted)) eqn:Hlt; [|done].
  apply Z.ltb_lt in Hlt.
  destruct (lookup_lt_is_Some_2 sorted (Z.to_nat (start + limit - 1))) as [x Hx];
    [lia|].
  rewrite Hx in Hnext, Hcut' |- *. simpl in Hnext, Hcut' |- *.
  assert (provider.Channel.ID x ≠ "") as Hid.
  { intros Hid. apply Hnext. by rewrite Hid. }
  rewrite (startIndexOf_after sorted _ x Hs Hx ltac:(lia) Hid) in Hcut'.
  replace (Z.of_nat (S (Z.to_nat (start + limit - 1)))) with (start + limit)
    in Hcut' by lia.
  exists (take (Z.to_nat start) sorted), (drop (Z.to_nat (start + limit)) sorted).
  eexists. split; [|split; [|exact Hcut']].
  - replace (Z.to_nat (start + limit)) with (Z.to_nat start + Z.to_nat limit)%nat
      by lia.
    by rewrite <- drop_drop, !take_drop.
  - intros Hnil. apply (f_equal length) in Hnil. rewrite length_drop in Hnil.
    simpl in Hnil. lia.
Qed.

End pages.

Lemma paginateChannels_page_witness :
  ∃ paged next,
    handler.paginateChannels (handler.allChannels cache250) "QzAwNQ==" 3
    = Some (paged, next)
    ∧ (∃ before rest,
         sort_Slice handler.byID (handler.allChannels cache250)
         = (before ++ paged ++ rest)%list)
    ∧ StronglySorted (λ a b, handler.byID b a = false) paged
    ∧ (∀ c, c ∈ paged → c ∈ handler.allChannels cache250)
    ∧ Z.of_nat (length paged) ≤ 3
    ∧ (handler.allChannels cache250 ≠ [] → paged ≠ []).
Proof.
  apply (paginateChannels_page (handler.allChannels cache250) "QzAwNQ==" 3).
  - lia.
  - vm_compute. reflexivity.
Defined.

Lemma paginateChannels_next_cursor_witness :
  Z.of_nat (length (channelNo <$> seq 6 3)) = 3
  ∧ (length (channelNo <$> seq 6 3) < length (handler.allChannels cache250))%nat
  ∧ ∃ x, last (channelNo <$> seq 6 3) = Some x
         ∧ base64.DecodeString "QzAwOA==" = Some (provider.Channel.ID x).
Proof.
  apply (paginateChannels_next_cursor (handler.allChannels cache250) "QzAwNQ==" 3
           (channelNo <$> seq 6 3) "QzAwOA==").
  - lia.
  - vm_compute. reflexivity.
  - vm_compute. reflexivity.
  - discriminate.
Defined.

Lemma next_cursor_resumes_witness :
  ∃ before rest next',
    sort_Slice handler.byID (handler.allChannels cache250)
    = (before ++ (channelNo <$> seq 6 3) ++ rest)%list
    ∧ rest ≠ []
    ∧ handler.paginateChannels (handler.allChannels cache250) "QzAwOA==" 5
      = Some (take (Z.to_nat 5) rest, next').
Proof.
  apply (next_cursor_resumes (handler.allChannels cache250) "QzAwNQ==" 3 5
           (channelNo <$> seq 6 3) "QzAwOA==").
  - apply (bool_decide_unpack _). vm_compute. reflexivity.
  - lia.
  - vm_compute. reflexivity.
  - lia.
  - vm_compute. reflexivity.
  - vm_compute. reflexivity.
  - discriminate.
Defined.

(** ** The limit and the order of the visit *)

Section limits.
Context `{GoRuntime}.

(** With a negative limit the end index is below the start index, and the
    slice expression panics. *)
Lemma pageFrom_negative sorted startIndex limit :
  0 ≤ startIndex ≤ Z.of_nat (length sorted) → - 2 ^ 63 ≤ limit < 0 →
  handler.pageFrom sorted startIndex limit = None.
Proof.
  intros Hstart Hlimit. unfold handler.pageFrom. cbv zeta.
  pose proof (wrap_int_le (startIndex + limit) ltac:(lia)) as Hw.
  set (endIndex := wrap_int _) in *.
  replace (endIndex >? Z.of_nat (length sorted)) with false by lia.
  unfold slice.
  by replace ((0 <=? startIndex) && (startIndex <=? endIndex)
              && (endIndex <=? Z.of_nat (length sorted))) with false by lia.
Qed.

(** X19: in legacy mode with a ready provider, a request with a negative
    limit makes the handler panic, whatever the channels, the types, the
    cursor and the sort: the limit is neither replaced nor capped, and the
    page would end before it starts. *)
Theorem negative_limit_panics (ch : handler.ChannelsHandler.t) (api : slack.API)
    (ctx : auth.Context.t) (sort types cursor : option string) (n : Z)
    (err : error) :
  handler.ChannelsHandler.oauthEnabled ch = false →
  provider.ApiProvider.IsReady (handler.ChannelsHandler.apiProvider ch) = (true, err) →
  - 2 ^ 63 ≤ n < 0 →
  handler.ChannelsHandler ch api ctx
    (handler.CallToolRequest.mk sort types cursor (Some n)) = None.
Proof.
  intros Hmode Hready Hn.
  rewrite (ChannelsHandler_legacy ch api ctx _ err Hmode Hready).
  rewrite ChannelsHandler_None; [done|].
  change (handler.listPage ch _) with
    (handler.paginateChannels
       (handler.filterChannelsByTypes (handler.allChannels ch)
          (handler.parseChannelTypes (handler.ChannelsHandler.validTypes ch)
             (default provider.PubChanType types)))
       (default "" cursor) (handler.effectiveLimit n)).
  rewrite paginateChannels_steps. cbv zeta.
  apply pageFrom_negative; [apply startIndexOf_bounds|].
  rewrite effectiveLimit_cases. destruct (n =? 0) eqn:H0; lia.
Qed.

(** X20: the order in which the [range] over the map of channels visits
    them does not show in the result: two handlers that differ only in that
    order answer every request alike, in both modes, as long as the ids of
    the channels are distinct. *)
Theorem range_order_is_immaterial (ch ch' : handler.ChannelsHandler.t)
    (api : slack.API) (ctx : auth.Context.t) (request : handler.CallToolRequest.t) :
  NoDup (provider.Channel.ID <$> handler.allChannels ch) →
  handler.allChannels ch' ≡ₚ handler.allChannels ch →
  handler.ChannelsHandler.validTypes ch' = handler.ChannelsHandler.validTypes ch →
  handler.ChannelsHandler.oauthEnabled ch' = handler.ChannelsHandler.oauthEnabled ch →
  provider.ApiProvider.IsReady (handler.ChannelsHandler.apiProvider ch')
  = provider.ApiProvider.IsReady (handler.ChannelsHandler.apiProvider ch) →
  handler.ChannelsHandler ch' api ctx request
  = handler.ChannelsHandler ch api ctx request.
Proof.
  intros Hnd Hperm Hvalid Hmode Hready.
  unfold handler.ChannelsHandler. rewrite Hmode, Hready.
  destruct (handler.ChannelsHandler.oauthEnabled ch) eqn:Hmode'.
  - unfold handler.channelsHandlerOAuth, handler.getSlackClient.
    by rewrite Hmode, Hmode', Hvalid.
  - clear Hready.
    destruct (provider.ApiProvider.IsReady _) as [[] err]; [|done].
    by rewrite (proj2 (listPage_range_order ch ch' request Hnd Hperm Hvalid)).
Qed.

End limits.

Lemma negative_limit_panics_witness :
  handler.ChannelsHandler cache250 generalOnly (auth.Context.mk None None)
    (handler.CallToolRequest.mk None (Some "im") (Some "QzAwNQ==") (Some (-1)))
  = None.
Proof.
  apply (negative_limit_panics cache250 generalOnly (auth.Context.mk None None)
           None (Some "im") (Some "QzAwNQ==") (-1) "").
  - reflexivity.
  - reflexivity.
  - lia.
Defined.

Lemma range_order_is_immaterial_witness :
  handler.ChannelsHandler cache250backwards generalOnly (auth.Context.mk None None)
    (handler.CallToolRequest.mk None (Some "private_channel") (Some "QzAwNQ==") (Some 7))
  = handler.ChannelsHandler cache250 generalOnly (auth.Context.mk None None)
      (handler.CallToolRequest.mk None (Some "private_channel") (Some "QzAwNQ==") (Some 7)).
Proof.
  apply (range_order_is_immaterial cache250 cache250backwards generalOnly
           (auth.Context.mk None None)
           (handler.CallToolRequest.mk None (Some "private_channel") (Some "QzAwNQ==")
              (Some 7))).
  - apply (bool_decide_unpack _). vm_compute. reflexivity.
  - apply (bool_decide_unpack _). vm_compute. reflexivity.
  - reflexivity.
  - reflexivity.
  - reflexivity.
Defined.

(** ** The OAuth mode of the channel handler *)

(** When every call succeeds, the loop appends the rows of the answers, in
    the order of the channel types. *)
Lemma fetchChannels_answers (api : slack.API) client limit channelTypes acc
    (answer : string → list slack.Channel.t * string) :
  Forall (λ t, api client (slack.GetConversationsParameters.mk [t] limit true)
               = inl (answer t)) channelTypes →
  handler.fetchChannels api client limit channelTypes acc
  = inl (acc ++
         (t ← channelTypes;
          (λ c, handler.Channel.mk (slack.Channel.ID c) ("#" +:+ slack.Channel.Name c)
                  (slack.Channel.Topic_Value c) (slack.Channel.Purpose_Value c)
                  (slack.Channel.NumMembers c) "") <$> (answer t).1))%list.
Proof.
  intros Hall. revert acc.
  induction Hall as [|t rest Ht _ IH]; intros acc; simpl.
  - by rewrite (right_id_L [] (++)%list).
  - rewrite Ht. destruct (answer t) as [channels upstreamCursor]. simpl.
    by rewrite IH, (assoc_L (++)%list).
Qed.

(** The loop fails exactly at the first channel type whose call fails. *)
Lemma fetchChannels_error (api : slack.API) client limit channelTypes acc e :
  handler.fetchChannels api client limit channelTypes acc = inr e
  ↔ ∃ before t after err,
      channelTypes = (before ++ t :: after)%list
      ∧ Forall (λ t', ∃ r, api client
                             (slack.GetConversationsParameters.mk [t'] limit true)
                           = inl r) before
      ∧ api client (slack.GetConversationsParameters.mk [t] limit true) = inr err
      ∧ e = "failed to get channels: " +:+ err.
Proof.
  split.
  - revert acc. induction channelTypes as [|t rest IH]; intros acc; simpl; [done|].
    destruct (api client _) as [[channels upstreamCursor]|err] eqn:Ht.
    + intros Hrest. apply IH in Hrest as (before & t' & after & err & -> & Hb & Ht' & ->).
      exists (t :: before), t', after, err. split; [done|].
      split; [|done]. constructor; [by eexists|done].
    + intros [= <-]. by exists [], t, rest, err.
  - intros (before & t & after & err & -> & Hb & Ht & ->). revert acc.
    induction Hb as [|t' before [r Ht'] _ IH]; intros acc; simpl.
    + by rewrite Ht.
    + rewrite Ht'. destruct r as [channels upstreamCursor]. apply IH.
Qed.

Section oauth_mode.
Context `{GoRuntime}.

(** X21: in OAuth mode, when the upstream answers every call, the rows are
    those of its answers, one call for each valid channel type of the request
    in the order (and with the repetitions) of the request, or one for public
    and one for private channels when none is valid; each call is made with
    the token of the identity in the context, with the limit of the request
    (100 when absent) and without the archived channels; the names are
    prefixed with [#] and no row has a cursor.  Sorting by popularity
    rearranges the rows; it is not the default in this mode. *)
Theorem oauth_rows_follow_the_types (ch : handler.ChannelsHandler.t)
    (api : slack.API) (ctx : auth.Context.t) (request : handler.CallToolRequest.t)
    (userCtx : auth.UserContext.t)
    (answer : string → list slack.Channel.t * string) :
  let valid :=
    handler.validChannelTypes (handler.ChannelsHandler.validTypes ch)
      (default "public_channel" (handler.CallToolRequest.channel_types request)) in
  let channelTypes :=
    match valid with [] => ["public_channel"; "private_channel"] | _ => valid end in
  let fetched :=
    t ← channelTypes;
    (λ c, handler.Channel.mk (slack.Channel.ID c) ("#" +:+ slack.Channel.Name c)
            (slack.Channel.Topic_Value c) (slack.Channel.Purpose_Value c)
            (slack.Channel.NumMembers c) "") <$> (answer t).1 in
  handler.ChannelsHandler.oauthEnabled ch = true →
  auth.FromContext ctx = Some userCtx →
  Forall (λ t, api (auth.UserContext.AccessToken userCtx)
                 (slack.GetConversationsParameters.mk [t]
                    (default 100 (handler.CallToolRequest.limit request)) true)
               = inl (answer t)) channelTypes →
  ∃ rows,
    handler.ChannelsHandler ch api ctx request = Some (inl rows)
    ∧ rows ≡ₚ fetched
    ∧ (handler.CallToolRequest.sort request ≠ Some "popularity" → rows = fetched).
Proof.
  intros valid channelTypes fetched Hmode Hctx Hall.
  unfold handler.ChannelsHandler, handler.channelsHandlerOAuth, handler.getSlackClient.
  rewrite Hmode, Hctx. cbn [negb]. cbv zeta. fold valid.
  replace (if (length valid =? 0)%nat
           then ["public_channel"; "private_channel"] else valid)
    with channelTypes by (subst channelTypes; by destruct valid).
  rewrite (fetchChannels_answers _ _ _ _ _ answer Hall).
  cbn [app]. fold fetched.
  eexists. split; [reflexivity|]. split.
  - destruct (String.eqb _ _); [apply sort_Slice_perm|done].
  - intros Hsort. destruct (String.eqb _ _) eqn:Heq; [|done].
    apply String.eqb_eq in Heq.
    destruct (handler.CallToolRequest.sort request) as [s|]; simpl in Heq;
      [by subst s|done].
Qed.

(** X22: in OAuth mode the handler returns an error in two cases only:
    there is no identity in the context, and then no call is made; or a call
    to the upstream fails, and then the error is the one of the first call
    that failed, and the rows fetched before it are dropped. *)
Theorem oauth_mode_errors (ch : handler.ChannelsHandler.t)
    (api : slack.API) (ctx : auth.Context.t) (request : handler.CallToolRequest.t)
    (e : error) :
  let valid :=
    handler.validChannelTypes (handler.ChannelsHandler.validTypes ch)
      (default "public_channel" (handler.CallToolRequest.channel_types request)) in
  let channelTypes :=
    match valid with [] => ["public_channel"; "private_channel"] | _ => valid end in
  let params := λ t,
    slack.GetConversationsParameters.mk [t]
      (default 100 (handler.CallToolRequest.limit request)) true in
  handler.ChannelsHandler.oauthEnabled ch = true →
  handler.ChannelsHandler ch api ctx request = Some (inr e)
  ↔ (auth.FromContext ctx = None
     ∧ e = "authentication error: user context not found")
    ∨ (∃ userCtx before t after err,
         auth.FromContext ctx = Some userCtx
         ∧ channelTypes = (before ++ t :: after)%list
         ∧ Forall (λ t', ∃ r, api (auth.UserContext.AccessToken userCtx) (params t')
                              = inl r) before
         ∧ api (auth.UserContext.AccessToken userCtx) (params t) = inr err
         ∧ e = "failed to get channels: " +:+ err).
Proof.
  intros valid channelTypes params Hmode.
  unfold handler.ChannelsHandler, handler.channelsHandlerOAuth, handler.getSlackClient.
  rewrite Hmode. cbn [negb]. cbv zeta. fold valid.
  replace (if (length valid =? 0)%nat
           then ["public_channel"; "private_channel"] else valid)
    with channelTypes by (subst channelTypes; by destruct valid).
  destruct (auth.FromContext ctx) as [userCtx|].
  - destruct (handler.fetchChannels _ _ _ _ _) as [rows|err] eqn:Hfetch.
    + split; [done|]. intros [[? _]|(u & before & t & after & err & [= <-] & Hrest)];
        [done|].
      assert (handler.fetchChannels api (auth.UserContext.AccessToken userCtx)
                (default 100 (handler.CallToolRequest.limit request))
                channelTypes [] = inr e) as Hfail
        by (apply fetchChannels_error; by exists before, t, after, err).
      by rewrite Hfetch in Hfail.
    + apply fetchChannels_error in Hfetch
        as (before & t & after & err' & Hcut & Hb & Ht & ->).
      split.
      * intros [= <-]. right. by exists userCtx, before, t, after, err'.
      * intros [[? _]|(u & before' & t' & after' & err & [= <-] & Hrest)]; [done|].
        assert (handler.fetchChannels api (auth.UserContext.AccessToken userCtx)
                  (default 100 (handler.CallToolRequest.limit request))
                  channelTypes [] = inr e) as Hfail
          by (apply fetchChannels_error; by exists before', t', after', err).
        assert (handler.fetchChannels api (auth.UserContext.AccessToken userCtx)
                  (default 100 (handler.CallToolRequest.limit request))
                  channelTypes [] = inr ("failed to get channels: " +:+ err')) as Hfail'
          by (apply fetchChannels_error; by exists before, t, after, err').
        rewrite Hfail in Hfail'. by injection Hfail' as ->.
  - split.
    + intros [= <-]. by left.
    + by intros [[_ ->]|(u & before & t & after & err & ? & _)].
Qed.

End oauth_mode.

Lemma oauth_rows_follow_the_types_witness :
  let request :=
    handler.CallToolRequest.mk None (Some "im, bogus ,im") None (Some (-4)) in
  let answer := λ _ : string, ([slack.Channel.mk "C1" "general" "" "" 3], "") in
  let valid :=
    handler.validChannelTypes
      (handler.ChannelsHandler.validTypes handler.NewChannelsHandlerWithOAuth)
      (default "public_channel" (handler.CallToolRequest.channel_types request)) in
  let channelTypes :=
    match valid with [] => ["public_channel"; "private_channel"] | _ => valid end in
  let fetched :=
    t ← channelTypes;
    (λ c, handler.Channel.mk (slack.Channel.ID c) ("#" +:+ slack.Channel.Name c)
            (slack.Channel.Topic_Value c) (slack.Channel.Purpose_Value c)
            (slack.Channel.NumMembers c) "") <$> (answer t).1 in
  fetched = [handler.Channel.mk "C1" "#general" "" "" 3 "";
             handler.Channel.mk "C1" "#general" "" "" 3 ""]
  ∧ ∃ rows,
      handler.ChannelsHandler handler.NewChannelsHandlerWithOAuth generalForOne
        (auth.Context.mk None (Some (auth.UserContext.mk "U1" "T1" "xoxp-1" "" "")))
        request
      = Some (inl rows)
      ∧ rows ≡ₚ fetched
      ∧ (handler.CallToolRequest.sort request ≠ Some "popularity" → rows = fetched).
Proof.
  split; [reflexivity|].
  apply (oauth_rows_follow_the_types handler.NewChannelsHandlerWithOAuth generalForOne
           (auth.Context.mk None (Some (auth.UserContext.mk "U1" "T1" "xoxp-1" "" "")))
           (handler.CallToolRequest.mk None (Some "im, bogus ,im") None (Some (-4)))
           (auth.UserContext.mk "U1" "T1" "xoxp-1" "" "")
           (λ _, ([slack.Channel.mk "C1" "general" "" "" 3], ""))).
  - reflexivity.
  - reflexivity.
  - vm_compute. constructor; [reflexivity|]. constructor; [reflexivity|]. constructor.
Defined.

Lemma oauth_mode_errors_witness :
  let ctx :=
    auth.Context.mk None (Some (auth.UserContext.mk "U2" "T1" "xoxp-2" "" "")) in
  let request := handler.CallToolRequest.mk None None None None in
  let valid :=
    handler.validChannelTypes
      (handler.ChannelsHandler.validTypes handler.NewChannelsHandlerWithOAuth)
      (default "public_channel" (handler.CallToolRequest.channel_types request)) in
  let channelTypes :=
    match valid with [] => ["public_channel"; "private_channel"] | _ => valid end in
  let params := λ t,
    slack.GetConversationsParameters.mk [t]
      (default 100 (handler.CallToolRequest.limit request)) true in
  handler.ChannelsHandler handler.NewChannelsHandlerWithOAuth generalForOne ctx request
  = Some (inr "failed to get channels: invalid_auth")
  ↔ (auth.FromContext ctx = None
     ∧ "failed to get channels: invalid_auth"
       = "authentication error: user context not found")
    ∨ (∃ userCtx before t after err,
         auth.FromContext ctx = Some userCtx
         ∧ channelTypes = (before ++ t :: after)%list
         ∧ Forall (λ t', ∃ r, generalForOne (auth.UserContext.AccessToken userCtx)
                                (params t') = inl r) before
         ∧ generalForOne (auth.UserContext.AccessToken userCtx) (params t) = inr err
         ∧ "failed to get channels: invalid_auth"
           = "failed to get channels: " +:+ err).
Proof.
  apply (oauth_mode_errors handler.NewChannelsHandlerWithOAuth generalForOne
           (auth.Context.mk None (Some (auth.UserContext.mk "U2" "T1" "xoxp-2" "" "")))
           (handler.CallToolRequest.mk None None None None)
           "failed to get channels: invalid_auth").
  reflexivity.
Defined.

(** ** The order of the rows *)

Lemma StrictWeak_by_popularity :
  StrictWeak (λ a b : handler.Channel.t,
                handler.Channel.MemberCount a >? handler.Channel.MemberCount b).
Proof. split; intros; lia. Qed.

Lemma StronglySorted_key {A B} (f : A → B) (R : relation B) (l : list A) :
  StronglySorted (λ a b, R (f a) (f b)) l ↔ StronglySorted R (f <$> l).
Proof.
  induction l as [|x l IH]; simpl; [split; constructor|].
  by rewrite !StronglySorted_cons, IH, Forall_fmap.
Qed.

Lemma StronglySorted_mono {A} (R1 R2 : relation A) (l : list A) :
  (∀ x y, R1 x y → R2 x y) → StronglySorted R1 l → StronglySorted R2 l.
Proof.
  intros HR. induction 1 as [|x l Hl IH Hx]; constructor; [done|].
  eapply Forall_impl; [exact Hx|]. apply HR.
Qed.

Lemma setLastCursor_MemberCounts (rows : list handler.Channel.t) nextcur :
  handler.Channel.MemberCount <$> handler.setLastCursor rows nextcur
  = handler.Channel.MemberCount <$> rows.
Proof.
  unfold handler.setLastCursor.
  rewrite (list_fmap_alter _ _ id) by by apply Forall_true.
  by apply list_alter_id.
Qed.

(** A slice of a sorted slice is sorted. *)
Lemma slice_sorted {A} (R : relation A) (s paged : list A) lo hi :
  slice s lo hi = Some paged → StronglySorted R s → StronglySorted R paged.
Proof.
  unfold slice. destruct (_ && _); [|done]. intros [= <-] Hs.
  rewrite <- (take_drop (Z.to_nat lo) s) in Hs.
  apply StronglySorted_app_1_r in Hs.
  rewrite <- (take_drop (Z.to_nat hi - Z.to_nat lo) (drop (Z.to_nat lo) s)) in Hs.
  by apply StronglySorted_app_1_l in Hs.
Qed.

Section display_order.
Context `{GoRuntime}.

(** A page is in ascending order of the ids, whatever the request. *)
Lemma listPage_sorted ch request page next :
  handler.listPage ch request = Some (page, next) →
  StronglySorted (λ a b, handler.byID b a = false) page.
Proof.
  unfold handler.listPage. cbv zeta. rewrite paginateChannels_steps. cbv zeta.
  set (sorted := sort_Slice handler.byID _).
  assert (StronglySorted (λ a b, handler.byID b a = false) sorted) as Hs
    by apply sort_Slice_sorted, StrictWeak_by_ID.
  unfold handler.pageFrom. cbv zeta.
  destruct (slice sorted _ _) as [paged|] eqn:Hslice; [|done]. simpl.
  assert (StronglySorted (λ a b, handler.byID b a = false) paged) as Hp
    by exact (slice_sorted _ _ _ _ _ Hslice Hs).
  destruct (_ <? _); [destruct (index _ _); [|done]|]; by intros [= <- <-].
Qed.

(** X23: the order of the rows of a result.  When the sort type is
    [popularity] (the default of the legacy mode, not of the OAuth mode) the
    rows are in descending order of their member counts; with any other sort
    type the rows of the legacy mode are in ascending order of their ids. *)
Theorem rows_display_order (ch : handler.ChannelsHandler.t) (api : slack.API)
    (ctx : auth.Context.t) (request : handler.CallToolRequest.t)
    (rows : list handler.Channel.t) :
  handler.ChannelsHandler ch api ctx request = Some (inl rows) →
  if String.eqb
       (default (if handler.ChannelsHandler.oauthEnabled ch then "" else "popularity")
          (handler.CallToolRequest.sort request)) "popularity"
  then StronglySorted
         (λ a b, handler.Channel.MemberCount b ≤ handler.Channel.MemberCount a) rows
  else handler.ChannelsHandler.oauthEnabled ch = false →
       StronglySorted
         (λ a b, GoString.lt (handler.Channel.ID b) (handler.Channel.ID a) = false)
         rows.
Proof.
  assert (∀ l : list handler.Channel.t,
            StronglySorted
              (λ a b, handler.Channel.MemberCount b ≤ handler.Channel.MemberCount a)
              (sort_Slice (λ a b, handler.Channel.MemberCount a
                                  >? handler.Channel.MemberCount b) l)) as Hsorted.
  { intros l.
    eapply StronglySorted_mono;
      [|apply sort_Slice_sorted, StrictWeak_by_popularity].
    simpl. intros x y Hxy. lia. }
  unfold handler.ChannelsHandler.
  destruct (handler.ChannelsHandler.oauthEnabled ch).
  - unfold handler.channelsHandlerOAuth.
    destruct (handler.getSlackClient ch ctx) as [client|err]; [|done]. cbv zeta.
    destruct (handler.fetchChannels _ _ _ _ _) as [fetched|err]; [|done].
    intros [= <-]. destruct (String.eqb _ _); [apply Hsorted|done].
  - destruct (provider.ApiProvider.IsReady _) as [[] err]; [|done].
    unfold handler.channelsHandlerLegacy. cbv zeta.
    destruct (handler.listPage ch request) as [[chans nextcur]|] eqn:Hp; [|done].
    simpl. intros [= <-].
    apply listPage_sorted in Hp.
    destruct (String.eqb _ _).
    + apply (StronglySorted_key handler.Channel.MemberCount (λ x y, y ≤ x)).
      destruct (_ && _); [rewrite setLastCursor_MemberCounts|];
        apply (StronglySorted_key handler.Channel.MemberCount (λ x y, y ≤ x)), Hsorted.
    + intros _.
      apply (StronglySorted_key handler.Channel.ID (λ x y, GoString.lt y x = false)).
      assert (handler.Channel.ID <$> (handler.toRow <$> chans)
              = provider.Channel.ID <$> chans) as HIDs
        by by rewrite <- list_fmap_compose.
      destruct (_ && _); [rewrite setLastCursor_IDs|]; rewrite HIDs;
        by apply (StronglySorted_key provider.Channel.ID
                    (λ x y, GoString.lt y x = false)).
Qed.

End display_order.

Lemma rows_display_order_witness :
  StronglySorted
    (λ a b, handler.Channel.MemberCount b ≤ handler.Channel.MemberCount a)
    [handler.toRow (channelNo 1); handler.toRow (channelNo 5);
     handler.withCursor (handler.toRow (channelNo 0)) "QzAwNQ=="].
Proof.
  apply (rows_display_order cache250 generalOnly (auth.Context.mk None None)
           (handler.CallToolRequest.mk None (Some "private_channel") None (Some 3))
           [handler.toRow (channelNo 1); handler.toRow (channelNo 5);
            handler.withCursor (handler.toRow (channelNo 0)) "QzAwNQ=="]).
  vm_compute. reflexivity.
Defined.

(** X24: the legacy mode takes the requested channel types as a set: two
    lists of types with the same elements, in whatever order and with
    whatever repetitions, select the same channels in the same order. *)
Theorem filterChannelsByTypes_types_as_set (channels : list provider.Channel.t)
    (types types' : list string) :
  list_to_set types =@{gset string} list_to_set types' →
  handler.filterChannelsByTypes channels types
  = handler.filterChannelsByTypes channels types'.
Proof.
  intros Hset. unfold handler.filterChannelsByTypes. cbv zeta.
  assert (∀ k, mapBool (foldl (λ m t, <[t := true]> m) ∅ types) k
               = mapBool (foldl (λ m t, <[t := true]> m) ∅ types') k) as Hmap.
  { intros k.
    pose proof (typeSet_requested types k) as Hk.
    pose proof (typeSet_requested types' k) as Hk'.
    assert (k ∈ types ↔ k ∈ types') as Hin.
    { rewrite <- (elem_of_list_to_set (C := gset string) k types),
              <- (elem_of_list_to_set (C := gset string) k types').
      by rewrite Hset. }
    destruct (mapBool _ k), (mapBool _ k); try done.
    - symmetry. apply Hk', Hin, Hk. done.
    - apply Hk, Hin, Hk'. done. }
  revert Hmap.
  generalize (foldl (λ (m : gmap string bool) t, <[t := true]> m) ∅ types)
             (foldl (λ (m : gmap string bool) t, <[t := true]> m) ∅ types').
  intros typeSet typeSet' Hmap.
  generalize (@nil provider.Channel.t).
  induction channels as [|c channels IH]; intros acc; simpl; [done|].
  rewrite IH. f_equal. unfold handler.filterStep. by rewrite !Hmap.
Qed.

Lemma filterChannelsByTypes_types_as_set_witness :
  handler.filterChannelsByTypes (handler.allChannels cache250)
    ["private_channel"; "im"; "private_channel"]
  = handler.filterChannelsByTypes (handler.allChannels cache250)
      ["im"; "private_channel"].
Proof.
  apply (filterChannelsByTypes_types_as_set (handler.allChannels cache250)
           ["private_channel"; "im"; "private_channel"] ["im"; "private_channel"]).
  apply (bool_decide_unpack _). vm_compute. reflexivity.
Defined.

(** ** The query of the authorization URL *)

Lemma SplitByte_nonempty s sep : GoString.SplitByte s sep ≠ [].
Proof.
  destruct s as [|c s]; simpl; [done|].
  destruct (Ascii.eqb c sep); [done|]. by destruct (GoString.SplitByte s sep).
Qed.

(** A string without the separator, followed by another string. *)
Lemma SplitByte_app a b sep :
  GoString.SplitByte a sep = [a] →
  GoString.SplitByte (a +:+ b) sep
  = match GoString.SplitByte b sep with
    | [] => [a]
    | w :: ws => (a +:+ w) :: ws
    end.
Proof.
  induction a as [|c a IH]; simpl.
  - intros _. destruct (GoString.SplitByte b sep) eqn:Hb; [|done].
    by destruct (SplitByte_nonempty b sep).
  - destruct (Ascii.eqb c sep); [done|].
    destruct (GoString.SplitByte a sep) as [|w ws] eqn:Ha;
      [by destruct (SplitByte_nonempty a sep)|].
    intros [= -> ->]. rewrite IH by done.
    by destruct (GoString.SplitByte b sep).
Qed.

Lemma SplitByte_app_sep a b sep :
  GoString.SplitByte a sep = [a] →
  GoString.SplitByte (a +:+ String sep b) sep = a :: GoString.SplitByte b sep.
Proof.
  intros Ha. rewrite SplitByte_app by done. simpl.
  rewrite Ascii.eqb_refl. f_equal.
  clear Ha. induction a as [|c a IH]; [done|].
  change (String c (a +:+ "") = String c a). by f_equal.
Qed.

Lemma SplitByte_app_none a b sep :
  GoString.SplitByte a sep = [a] → GoString.SplitByte b sep = [b] →
  GoString.SplitByte (a +:+ b) sep = [a +:+ b].
Proof. intros Ha Hb. by rewrite SplitByte_app, Hb. Qed.

(** An escaped value holds neither [&] nor [=]. *)
Lemma QueryEscape_no_separator s :
  GoString.SplitByte (url.QueryEscape s) "&" = [url.QueryEscape s]
  ∧ GoString.SplitByte (url.QueryEscape s) "=" = [url.QueryEscape s].
Proof.
  induction s as [|c s [IH1 IH2]]; [done|].
  destruct c as [[] [] [] [] [] [] [] []];
    cbn [url.QueryEscape]; vm_compute Ascii.eqb; cbv iota;
    try (vm_compute url.shouldEscape; cbv iota);
    try (vm_compute url.hexDigit);
    cbn [GoString.SplitByte]; vm_compute Ascii.eqb; cbv iota;
    rewrite IH1, IH2; split; reflexivity.
Qed.

(** The query of the authorization URL, cut at [&] and then at [=] and
    unescaped, is the five parameters and nothing else. *)
Lemma authParams_parse_back (clientID clientSecret redirectURI state : string) :
  (λ kv, url.QueryUnescape <$> GoString.SplitByte kv "=")
    <$> GoString.SplitByte
          (url.Encode
             (oauth.authParams (oauth.NewManager clientID clientSecret redirectURI)
                state)) "&"
  = [ [Some "client_id"; Some clientID];
      [Some "redirect_uri"; Some redirectURI];
      [Some "scope"; Some (GoString.Join oauth.botScopes ",")];
      [Some "state"; Some state];
      [Some "user_scope"; Some (GoString.Join oauth.userScopes ",")] ].
Proof.
  assert (url.Encode
            (oauth.authParams (oauth.NewManager clientID clientSecret redirectURI) state)
          = ("client_id" +:+ String "=" (url.QueryEscape clientID))
            +:+ String "&"
              (("redirect_uri" +:+ String "=" (url.QueryEscape redirectURI))
               +:+ String "&"
                 (("scope=" +:+ escapedBotScopes)
                  +:+ String "&"
                    (("state" +:+ String "=" (url.QueryEscape state))
                     +:+ String "&" ("user_scope=" +:+ escapedUserScopes))))) as ->.
  { unfold url.Encode, oauth.authParams, oauth.NewManager.
    change (url.sortedKeys _) with
      ["client_id"; "redirect_uri"; "scope"; "state"; "user_scope"].
    cbn [mbind list_bind]. rewrite !(right_id_L [] (++)%list).
    repeat first [ rewrite lookup_insert_eq
                 | rewrite lookup_insert_ne by done
                 | rewrite lookup_singleton_eq ].
    cbn [app fmap list_fmap default from_option id GoString.Join
         oauth.Manager.clientID oauth.Manager.redirectURI].
    change (url.QueryEscape (GoString.Join oauth.botScopes ","))
      with escapedBotScopes.
    change (url.QueryEscape (GoString.Join oauth.userScopes ","))
      with escapedUserScopes.
    reflexivity. }
  assert (∀ key value,
            GoString.SplitByte key "&" = [key] →
            GoString.SplitByte (key +:+ String "=" (url.QueryEscape value)) "&"
            = [key +:+ String "=" (url.QueryEscape value)]) as Hpiece.
  { intros key value Hkey. apply SplitByte_app_none; [done|].
    cbn [GoString.SplitByte]. vm_compute Ascii.eqb. cbv iota.
    by rewrite (proj1 (QueryEscape_no_separator value)). }
  assert (∀ key value,
            GoString.SplitByte key "=" = [key] →
            url.QueryUnescape key = Some key →
            url.QueryUnescape
              <$> GoString.SplitByte (key +:+ String "=" (url.QueryEscape value)) "="
            = [Some key; Some value]) as Hpair.
  { intros key value Hkey Hun. rewrite SplitByte_app_sep by done.
    rewrite (proj2 (QueryEscape_no_separator value)).
    cbn [fmap list_fmap]. by rewrite Hun, QueryUnescape_QueryEscape. }
  rewrite SplitByte_app_sep by (apply Hpiece; reflexivity).
  rewrite SplitByte_app_sep by (apply Hpiece; reflexivity).
  rewrite SplitByte_app_sep by (vm_compute; reflexivity).
  rewrite SplitByte_app_sep by (apply Hpiece; reflexivity).
  assert (GoString.SplitByte ("user_scope=" +:+ escapedUserScopes) "&"
          = ["user_scope=" +:+ escapedUserScopes]) as -> by (vm_compute; reflexivity).
  cbn [fmap list_fmap].
  rewrite !Hpair by reflexivity.
  repeat f_equal; vm_compute; reflexivity.
Qed.

(** X25: the query of the authorization URL, cut at [&], then at [=], and
    unescaped, gives back the five parameters and their values and nothing
    else, whatever bytes the client id, the redirect URI and the state are
    made of: no value can add a parameter to the URL or end one early. *)
Theorem GetAuthURL_parses_back (clientID clientSecret redirectURI state : string) :
  ∃ query,
    oauth.GetAuthURL (oauth.NewManager clientID clientSecret redirectURI) state
    = "https://slack.com/oauth/v2/authorize?" +:+ query
    ∧ (λ kv, url.QueryUnescape <$> GoString.SplitByte kv "=")
        <$> GoString.SplitByte query "&"
      = [ [Some "client_id"; Some clientID];
          [Some "redirect_uri"; Some redirectURI];
          [Some "scope"; Some (GoString.Join oauth.botScopes ",")];
          [Some "state"; Some state];
          [Some "user_scope"; Some (GoString.Join oauth.userScopes ",")] ].
Proof.
  eexists. split; [reflexivity|]. apply authParams_parse_back.
Qed.

Lemma append_inv_head pre s t : pre +:+ s = pre +:+ t → s = t.
Proof. induction pre as [|c pre IH]; [done|]. intros [= Heq]. by apply IH. Qed.

(** X26: two authorization URLs are equal only when they were made for the
    same client id, the same redirect URI and the same state; the client
    secret plays no part. *)
Theorem GetAuthURL_injective (m m' : oauth.Manager.t) (state state' : string) :
  oauth.GetAuthURL m state = oauth.GetAuthURL m' state' →
  oauth.Manager.clientID m = oauth.Manager.clientID m'
  ∧ oauth.Manager.redirectURI m = oauth.Manager.redirectURI m'
  ∧ state = state'.
Proof.
  destruct m as [clientID clientSecret redirectURI],
           m' as [clientID' clientSecret' redirectURI'].
  intros Hurl. apply append_inv_head in Hurl.
  pose proof (authParams_parse_back clientID clientSecret redirectURI state) as Hp.
  pose proof (authParams_parse_back clientID' clientSecret' redirectURI' state') as Hp'.
  unfold oauth.NewManager in Hp, Hp'.
  rewrite Hurl in Hp. rewrite Hp' in Hp.
  injection Hp as -> -> ->.
  split; [reflexivity|split; reflexivity].
Qed.

Lemma GetAuthURL_injective_witness :
  oauth.Manager.clientID (oauth.NewManager "12.34" "secret" "https://example.org/cb")
  = oauth.Manager.clientID (oauth.NewManager "12.34" "other" "https://example.org/cb")
  ∧ oauth.Manager.redirectURI (oauth.NewManager "12.34" "secret" "https://example.org/cb")
    = oauth.Manager.redirectURI
        (oauth.NewManager "12.34" "other" "https://example.org/cb")
  ∧ "a&b=c" = "a&b=c".
Proof.
  apply (GetAuthURL_injective
           (oauth.NewManager "12.34" "secret" "https://example.org/cb")
           (oauth.NewManager "12.34" "other" "https://example.org/cb")
           "a&b=c" "a&b=c").
  vm_compute. reflexivity.
Defined.

(** ** What a cursor selects, and following the cursors *)

Lemma filter_all {A} (P : A → Prop) `{∀ x, Decision (P x)} (l : list A) :
  Forall P l → filter P l = l.
Proof.
  induction 1 as [|x l Hx _ IH]; [done|]. by rewrite filter_cons_True, IH.
Qed.

(** In a slice in ascending order of the ids, the loop of [paginateChannels]
    stops where the channels past [lastID] start, when there is one. *)
Lemma findStart_filter (l : list provider.Channel.t) (lastID : string) (i : Z) :
  StronglySorted (λ a b, handler.byID b a = false) l →
  Exists (λ c, GoString.gt (provider.Channel.ID c) lastID = true) l →
  ∃ n : nat,
    handler.findStart l lastID i = i + Z.of_nat n
    ∧ drop n l = filter (λ c, GoString.gt (provider.Channel.ID c) lastID = true) l.
Proof.
  intros Hs. revert i.
  induction Hs as [|c rest Hrest IH Hc]; intros i Hex; [by inversion Hex|].
  simpl. destruct (GoString.gt (provider.Channel.ID c) lastID) eqn:Hgt.
  - exists 0%nat. split; [lia|]. rewrite filter_cons_True by done.
    rewrite filter_all; [done|].
    eapply Forall_impl; [exact Hc|]. intros x Hx. simpl in Hx.
    unfold handler.byID, GoString.lt, GoString.gt in *.
    destruct (String.ltb lastID (provider.Channel.ID x)) eqn:Hlx; [done|].
    by rewrite (string_ltb_negtrans _ _ _ Hx Hlx) in Hgt.
  - apply Exists_cons in Hex as [Hex|Hex]; [by rewrite Hgt in Hex|].
    destruct (IH (i + 1) Hex) as (n & Hn & Hdrop).
    exists (S n). split; [lia|].
    rewrite filter_cons_False by by rewrite Hgt. exact Hdrop.
Qed.

Section cursors.
Context `{GoRuntime}.

(** X27: what a cursor selects.  A cursor that decodes to [lastID], when
    some channel has an id above [lastID], makes the page start at the first
    such channel: the page is the first [limit] of the channels whose id is
    above [lastID], in ascending order of the ids.  [lastID] need not be the
    id of a channel, and the ids need not be distinct. *)
Theorem cursor_selects_greater_ids (channels : list provider.Channel.t)
    (cursor lastID : string) (limit : Z) :
  cursor ≠ "" →
  base64.DecodeString cursor = Some lastID →
  0 < limit → Z.of_nat (length channels) + limit < 2 ^ 63 →
  Exists (λ c, GoString.gt (provider.Channel.ID c) lastID = true) channels →
  ∃ next,
    handler.paginateChannels channels cursor limit
    = Some (take (Z.to_nat limit)
              (filter (λ c, GoString.gt (provider.Channel.ID c) lastID = true)
                 (sort_Slice handler.byID channels)),
            next).
Proof.
  intros Hcur Hdec Hlimit Hmax Hex.
  destruct (paginateChannels_cut channels cursor limit Hlimit Hmax) as (_ & _ & ->).
  set (sorted := sort_Slice handler.byID channels).
  assert (Exists (λ c, GoString.gt (provider.Channel.ID c) lastID = true) sorted)
    as Hex' by (subst sorted; by rewrite sort_Slice_perm).
  destruct (findStart_filter sorted lastID 0) as (n & Hn & Hdrop); [|done|].
  { apply sort_Slice_sorted, StrictWeak_by_ID. }
  assert (handler.startIndexOf sorted cursor = Z.of_nat n) as ->.
  { unfold handler.startIndexOf. apply String.eqb_neq in Hcur as ->. simpl.
    rewrite Hdec, Hn. lia. }
  rewrite Nat2Z.id, Hdrop. by eexists.
Qed.

(** X28: following the cursors from the empty cursor enumerates the
    channels.  When the ids are distinct and none is empty, the call number
    [k] (from 0) with the cursor of the call before it returns the channels
    number [k * limit] to [(k + 1) * limit - 1] in the order of the ids, and
    it comes with a cursor exactly when there are channels left: the pages do
    not overlap and leave nothing out. *)
Theorem following_cursors_enumerates (channels : list provider.Channel.t)
    (limit : Z) (k : nat) :
  let sorted := sort_Slice handler.byID channels in
  let follow := λ cursor,
    match handler.paginateChannels channels cursor limit with
    | Some (_, next) => next
    | None => cursor
    end in
  NoDup (provider.Channel.ID <$> channels) →
  "" ∉ provider.Channel.ID <$> channels →
  0 < limit → Z.of_nat (length channels) + limit < 2 ^ 63 →
  (k * Z.to_nat limit < length channels)%nat →
  ∃ next,
    handler.paginateChannels channels (Nat.iter k follow "") limit
    = Some (take (Z.to_nat limit) (drop (k * Z.to_nat limit) sorted), next)
    ∧ (next = "" ↔ (length channels ≤ S k * Z.to_nat limit)%nat).
Proof.
  intros sorted follow Hnd Hne Hlimit Hmax.
  assert (∀ cursor,
            handler.paginateChannels channels cursor limit
            = Some (take (Z.to_nat limit)
                      (drop (Z.to_nat (handler.startIndexOf sorted cursor)) sorted),
                    if handler.startIndexOf sorted cursor + limit
                       <? Z.of_nat (length sorted)
                    then default ""
                           (base64.EncodeToString ∘ provider.Channel.ID
                              <$> sorted !! Z.to_nat (handler.startIndexOf sorted cursor
                                                      + limit - 1))
                    else "")) as Hcut
    by (intros cursor; apply (paginateChannels_cut channels cursor limit Hlimit Hmax)).
  pose proof (Z2Nat.id limit ltac:(lia)) as HL.
  revert Hcut HL. generalize (Z.to_nat limit). intros L Hcut HL Hk.
  assert (sorted ≡ₚ channels) as Hperm by apply sort_Slice_perm.
  assert (length sorted = length channels) as Hlen by by rewrite Hperm.
  assert (StronglySorted (λ a b, handler.byID a b = true) sorted) as Hs.
  { apply sorted_distinct_strict; [|by rewrite Hperm].
    apply sort_Slice_sorted, StrictWeak_by_ID. }
  assert (∀ j x, sorted !! j = Some x →
                 base64.EncodeToString (provider.Channel.ID x) ≠ "") as Hids.
  { intros j x Hx He. apply EncodeToString_empty in He.
    apply Hne. rewrite <- He, <- Hperm.
    apply list_elem_of_fmap_2. by eapply list_elem_of_lookup_2. }
  assert (∀ i, (i * L < length channels)%nat →
               handler.startIndexOf sorted (Nat.iter i follow "")
               = Z.of_nat (i * L)) as Hstart.
  { induction i as [|i IH]; intros Hi; [done|].
    specialize (IH ltac:(lia)).
    change (Nat.iter (S i) follow "") with (follow (Nat.iter i follow "")).
    unfold follow at 1. rewrite Hcut, IH.
    rewrite (proj2 (Z.ltb_lt (Z.of_nat (i * L) + limit) (Z.of_nat (length sorted))))
      by lia.
    destruct (lookup_lt_is_Some_2 sorted
                (Z.to_nat (Z.of_nat (i * L) + limit - 1))) as [x Hx];
      [lia|].
    rewrite Hx. simpl.
    rewrite (startIndexOf_after sorted _ x Hs Hx); [lia|lia|].
    intros Hid. apply (Hids _ x Hx). by rewrite Hid. }
  rewrite Hcut, (Hstart k Hk), Nat2Z.id.
  eexists. split; [reflexivity|].
  destruct (decide (S k * L < length channels)%nat) as [Hmore|Hlast].
  - rewrite (proj2 (Z.ltb_lt (Z.of_nat (k * L) + limit) (Z.of_nat (length sorted))))
      by lia.
    destruct (lookup_lt_is_Some_2 sorted
                (Z.to_nat (Z.of_nat (k * L) + limit - 1))) as [x Hx];
      [lia|].
    rewrite Hx. simpl. split; [intros He; by destruct (Hids _ x Hx)|lia].
  - rewrite (proj2 (Z.ltb_ge (Z.of_nat (k * L) + limit) (Z.of_nat (length sorted))))
      by lia.
    split; [lia|done].
Qed.

End cursors.

Lemma cursor_selects_greater_ids_witness :
  ∃ next,
    handler.paginateChannels (handler.allChannels cache250) "QzAwNTU=" 4
    = Some (take (Z.to_nat 4)
              (filter (λ c, GoString.gt (provider.Channel.ID c) "C0055" = true)
                 (sort_Slice handler.byID (handler.allChannels cache250))),
            next).
Proof.
  apply (cursor_selects_greater_ids (handler.allChannels cache250) "QzAwNTU=" "C0055" 4).
  - discriminate.
  - vm_compute. reflexivity.
  - lia.
  - vm_compute. reflexivity.
  - apply (bool_decide_unpack _). vm_compute. reflexivity.
Defined.

Lemma following_cursors_enumerates_witness :
  let channels := handler.allChannels cache250 in
  let sorted := sort_Slice handler.byID channels in
  let follow := λ cursor,
    match handler.paginateChannels channels cursor 100 with
    | Some (_, next) => next
    | None => cursor
    end in
  ∃ next,
    handler.paginateChannels channels (Nat.iter 2 follow "") 100
    = Some (take (Z.to_nat 100) (drop (2 * Z.to_nat 100) sorted), next)
    ∧ (next = "" ↔ (length channels ≤ 3 * Z.to_nat 100)%nat).
Proof.
  apply (following_cursors_enumerates (handler.allChannels cache250) 100 2).
  - apply (bool_decide_unpack _). vm_compute. reflexivity.
  - apply (bool_decide_unpack _). vm_compute. reflexivity.
  - lia.
  - vm_compute. reflexivity.
  - vm_compute. lia.
Defined.
